(** * developer-workday: the two task-store utilities

    A shallow embedding of [check_tasks.py] (the Summary Reporter) and
    [show_task.py] (the Task Detail Printer), and the properties their
    specification states about them.

    Both scripts read [project-tasks.json] with [json.load], so the data
    they handle are the Python values that [json.load] builds.  A run is
    modelled by the events it performs (opening the file, printing a
    line) and by the way it ends (falling off the end of the script,
    [sys.exit], or an uncaught exception).

    Bounds of the model.  [json.load] itself and [open] are library code:
    the file system hands over either a failure or the parsed value.  A
    Python string is a [string] with one [ascii] per character, so only
    code points below 256 are covered.  A float carries its value and,
    as data, the text Python prints for it.  The interpreter's limit on
    the number of digits [int] and [str] accept is not modelled, and of
    the failures of [json.load] only [JSONDecodeError] is. *)

From Stdlib Require Import ZArith List String Ascii Bool Lia.
From Stdlib Require Import Floats.SpecFloat.
From Stdlib Require Import Numbers.DecimalString.
Import ListNotations.

#[local] Set Warnings "-register-all".
#[local] Open Scope string_scope.
#[local] Open Scope Z_scope.

(** ** Python values built by [json.load] *)

Module Py.

(** [JFloat v text]: [text] is [repr] of the float [v] (the shortest
    decimal that reads back as [v]); the scripts only print it. *)
Inductive value : Type :=
| JNull
| JBool (b : bool)
| JInt (n : Z)
| JFloat (v : spec_float) (text : string)
| JStr (s : string)
| JList (items : list value)
| JObject (fields : list (string * value)).

(** The exceptions the two scripts can end with. *)
Inductive exn : Type :=
| ValueError
| KeyError (key : string)
| TypeError
| AttributeError
| OSError
| JSONDecodeError.

(** *** Dictionaries

    A dictionary keeps its entries in insertion order and [json.load]
    leaves one entry per key; lookup returns the entry of the key. *)
Fixpoint dict_get (key : string) (fields : list (string * value)) : option value :=
  match fields with
  | [] => None
  | (k, v) :: rest => if String.eqb k key then Some v else dict_get key rest
  end.

(** *** Truth value testing: [bool(v)] *)
Definition float_nonzero (v : spec_float) : bool :=
  match v with
  | S754_zero _ => false
  | _ => true
  end.

Definition truthy (v : value) : bool :=
  match v with
  | JNull => false
  | JBool b => b
  | JInt n => negb (n =? 0)
  | JFloat f _ => float_nonzero f
  | JStr s => negb (String.eqb s "")
  | JList items => match items with [] => false | _ => true end
  | JObject fields => match fields with [] => false | _ => true end
  end.

(** *** Comparison with an integer: [v == k]

    [bool] is a subclass of [int] ([True == 1]); a float is compared by
    its exact value; every other type is unequal to every integer. *)
Definition float_eq_int (v : spec_float) (k : Z) : bool :=
  match v with
  | S754_zero _ => k =? 0
  | S754_finite sign m e =>
      let mant := if sign then Z.neg m else Z.pos m in
      if 0 <=? e then mant * 2 ^ e =? k else mant =? k * 2 ^ (- e)
  | _ => false
  end.

Definition eq_int (v : value) (k : Z) : bool :=
  match v with
  | JBool b => (if b then 1 else 0) =? k
  | JInt n => n =? k
  | JFloat f _ => float_eq_int f k
  | _ => false
  end.

(** *** Text of a value: [str(v)] and [repr(v)] *)
Definition str_int (n : Z) : string := NilZero.string_of_int (Z.to_int n).

Definition str_bool (b : bool) : string := if b then "True" else "False".

Definition hex_digit (n : N) : ascii :=
  ascii_of_N (if (n <? 10)%N then 48 + n else 87 + n)%N.

(** [str.isprintable] on the code points 128..255: the C1 controls, the
    no-break space and the soft hyphen are not printable. *)
Definition printable_high (n : N) : bool :=
  negb ((n <? 161) || (n =? 173))%N.

Definition repr_char (quote : ascii) (c : ascii) : string :=
  let n := N_of_ascii c in
  if (Ascii.eqb c quote || Ascii.eqb c "\")%bool then String "\" (String c "")
  else if (n =? 9)%N then "\t"
  else if (n =? 10)%N then "\n"
  else if (n =? 13)%N then "\r"
  else if ((n <? 32) || (n =? 127) || ((127 <? n) && negb (printable_high n)))%N%bool
       then String "\" (String "x" (String (hex_digit (n / 16)) (String (hex_digit (n mod 16)) "")))
  else String c "".

Definition double_quote : ascii := ascii_of_N 34.

Fixpoint contains_char (c : ascii) (s : string) : bool :=
  match s with
  | EmptyString => false
  | String d rest => Ascii.eqb c d || contains_char c rest
  end.

Fixpoint repr_chars (quote : ascii) (s : string) : string :=
  match s with
  | EmptyString => ""
  | String c rest => repr_char quote c ++ repr_chars quote rest
  end.

(** Single quotes, unless the text has a single quote and no double one. *)
Definition repr_str (s : string) : string :=
  let quote : ascii :=
    if (contains_char "'" s && negb (contains_char double_quote s))%bool
    then double_quote else "'"%char in
  String quote (repr_chars quote s ++ String quote "").

Fixpoint join (sep : string) (parts : list string) : string :=
  match parts with
  | [] => ""
  | [p] => p
  | p :: rest => p ++ sep ++ join sep rest
  end.

Fixpoint repr (v : value) : string :=
  match v with
  | JNull => "None"
  | JBool b => str_bool b
  | JInt n => str_int n
  | JFloat _ text => text
  | JStr s => repr_str s
  | JList items => "[" ++ join ", " (map repr items) ++ "]"
  | JObject fields =>
      "{" ++ join ", " (map (fun kv => repr_str (fst kv) ++ ": " ++ repr (snd kv)) fields) ++ "}"
  end.

Definition str (v : value) : string :=
  match v with
  | JStr s => s
  | _ => repr v
  end.

(** *** Reading an integer: [int(s)]

    Optional white space, an optional sign, decimal digits with single
    underscores allowed between digits, optional white space.  Below
    code point 256 the decimal digits are [0]..[9] and the white space
    that [int] skips is what [is_space] lists (the separators 28..31
    are not skipped). *)
Definition is_space (c : ascii) : bool :=
  let n := N_of_ascii c in
  (((9 <=? n) && (n <=? 13)) || (n =? 32) || (n =? 133) || (n =? 160))%N.

Definition digit_of (c : ascii) : option Z :=
  let n := N_of_ascii c in
  if ((48 <=? n) && (n <=? 57))%N then Some (Z.of_N n - 48) else None.

Fixpoint lstrip (s : string) : string :=
  match s with
  | EmptyString => ""
  | String c rest => if is_space c then lstrip rest else s
  end.

Fixpoint all_space (s : string) : bool :=
  match s with
  | EmptyString => true
  | String c rest => is_space c && all_space rest
  end.

(** The digits after the first one, [acc] being the number read so far. *)
Fixpoint more_digits (acc : Z) (s : string) : option Z :=
  match s with
  | EmptyString => Some acc
  | String c rest =>
      match digit_of c with
      | Some d => more_digits (10 * acc + d) rest
      | None =>
          if Ascii.eqb c "_" then
            match rest with
            | String c' rest' =>
                match digit_of c' with
                | Some d => more_digits (10 * acc + d) rest'
                | None => None
                end
            | EmptyString => None
            end
          else if all_space s then Some acc
          else None
      end
  end.

Definition unsigned_of_str (s : string) : option Z :=
  match s with
  | String c rest =>
      match digit_of c with
      | Some d => more_digits d rest
      | None => None
      end
  | EmptyString => None
  end.

Definition int_of_str (s : string) : option Z :=
  match lstrip s with
  | String "-" rest => option_map Z.opp (unsigned_of_str rest)
  | String "+" rest => unsigned_of_str rest
  | body => unsigned_of_str body
  end.

End Py.

(** ** Runs: events, endings, and the monad the scripts run in *)

Module Run.
Import Py.

Inductive event : Type :=
| EvOpen (path : string)
| EvPrint (text : string).

(** [print] writes [text] followed by a newline on the standard output. *)
Definition newline : string := String (ascii_of_N 10) "".

Fixpoint stdout (trace : list event) : string :=
  match trace with
  | [] => ""
  | EvPrint text :: rest => text ++ newline ++ stdout rest
  | EvOpen _ :: rest => stdout rest
  end.

(** A script stops early through [sys.exit(n)] or an exception nobody
    catches (the interpreter then prints a trace on the error stream). *)
Inductive halt : Type :=
| SysExit (status : Z)
| Uncaught (e : exn).

Definition M (A : Type) : Type := (list event * (halt + A))%type.

Definition ret {A} (a : A) : M A := ([], inr a).

Definition bind {A B} (m : M A) (f : A -> M B) : M B :=
  match m with
  | (tr, inl h) => (tr, inl h)
  | (tr, inr a) => let (tr', r) := f a in ((tr ++ tr')%list, r)
  end.

Definition emit (e : event) : M unit := ([e], inr tt).
Definition print (text : string) : M unit := emit (EvPrint text).
Definition raise {A} (e : exn) : M A := ([], inl (Uncaught e)).
Definition sys_exit {A} (status : Z) : M A := ([], inl (SysExit status)).

Definition trace {A} (m : M A) : list event := fst m.
Definition ending {A} (m : M A) : halt + A := snd m.

(** [after tr m]: the run [m] once the events [tr] have happened. *)
Definition after {A} (tr : list event) (m : M A) : M A :=
  ((tr ++ trace m)%list, ending m).

(** The status the process ends with. *)
Definition exit_status {A} (m : M A) : Z :=
  match ending m with
  | inr _ => 0
  | inl (SysExit status) => status
  | inl (Uncaught _) => 1
  end.

End Run.

Declare Scope run_scope.
Delimit Scope run_scope with run.
Notation "x <- m ;; k" := (Run.bind m (fun x => k))
  (at level 61, m at next level, right associativity) : run_scope.
Notation "m ;; k" := (Run.bind m (fun _ => k))
  (at level 61, right associativity) : run_scope.
#[local] Open Scope run_scope.

(** ** Operations of the scripts on Python values *)

Module Ops.
Import Py Run.

(** [v[key]] with a string key: a dictionary gives the entry or raises
    [KeyError]; lists and strings want integer indices and the other
    types are not subscriptable, a [TypeError] either way. *)
Definition subscript (v : value) (key : string) : M value :=
  match v with
  | JObject fields =>
      match dict_get key fields with
      | Some x => ret x
      | None => raise (KeyError key)
      end
  | _ => raise TypeError
  end.

(** [v.get(key, default)]: only dictionaries have the method. *)
Definition get (v : value) (key : string) (default : value) : M value :=
  match v with
  | JObject fields =>
      match dict_get key fields with
      | Some x => ret x
      | None => ret default
      end
  | _ => raise AttributeError
  end.

Fixpoint chars (s : string) : list value :=
  match s with
  | EmptyString => []
  | String c rest => JStr (String c "") :: chars rest
  end.

(** What [for t in v] goes through: the items of a list, the keys of a
    dictionary, the characters of a string. *)
Definition iter (v : value) : M (list value) :=
  match v with
  | JList items => ret items
  | JObject fields => ret (map (fun kv => JStr (fst kv)) fields)
  | JStr s => ret (chars s)
  | _ => raise TypeError
  end.

(** [len(v)] *)
Definition len (v : value) : M Z :=
  match v with
  | JList items => ret (Z.of_nat (List.length items))
  | JObject fields => ret (Z.of_nat (List.length fields))
  | JStr s => ret (Z.of_nat (String.length s))
  | _ => raise TypeError
  end.

(** A list comprehension [[t for t in items if cond(t)]]. *)
Fixpoint comprehension (cond : value -> M bool) (items : list value) : M (list value) :=
  match items with
  | [] => ret []
  | t :: rest =>
      keep <- cond t ;;
      kept <- comprehension cond rest ;;
      ret (if keep then t :: kept else kept)
  end.

End Ops.

(** ** The Task Store Reader *)

Module Reader.
Import Py Run.

(** What is behind a path: nothing that [open] can open, text that
    [json.load] rejects, or text that it parses to a value. *)
Inductive file : Type :=
| Absent
| Malformed
| Holds (doc : value).

Definition filesystem : Type := string -> file.

Definition store_path : string := "project-tasks.json".

(** [with open('project-tasks.json') as f: data = json.load(f)].  A
    [filesystem] is the files as the [open] call of the running script
    reads them: the two scripts do not decode the bytes alike, see
    [Main.disk]. *)
Definition load (fs : filesystem) : M value :=
  emit (EvOpen store_path) ;;
  match fs store_path with
  | Absent => raise OSError
  | Malformed => raise JSONDecodeError
  | Holds doc => ret doc
  end.

(** A file system whose task store holds [doc]. *)
Definition holding (doc : value) : filesystem := fun _ => Holds doc.

(** The document [{"tasks": [...]}]. *)
Definition store_of (tasks : list value) : value := JObject [("tasks", JList tasks)].

End Reader.

(** ** check_tasks.py *)

Module CheckTasks.
Import Py Run Ops Reader.

Definition passes (t : value) : M bool :=
  p <- get t "passes" (JBool false) ;; ret (truthy p).

Definition not_passes (t : value) : M bool :=
  p <- get t "passes" (JBool false) ;; ret (negb (truthy p)).

(** Lines 14 to 20: the next task, or the closing message. *)
Definition report_next (remaining : list value) : M unit :=
  match remaining with
  | t :: _ =>
      print "Next not-passing task:" ;;
      id <- subscript t "id" ;;
      print ("  ID: " ++ str id) ;;
      title <- subscript t "title" ;;
      print ("  Title: " ++ str title)
  | [] => print "All tasks are passing!"
  end.

Definition check_tasks (fs : filesystem) : M unit :=
  data <- load fs ;;
  tasks <- subscript data "tasks" ;;
  items <- iter tasks ;;
  remaining <- comprehension not_passes items ;;
  total <- len tasks ;;
  print ("Total: " ++ str_int total) ;;
  items' <- iter tasks ;;
  passing <- comprehension passes items' ;;
  print ("Passing: " ++ str_int (Z.of_nat (List.length passing))) ;;
  print ("Remaining: " ++ str_int (Z.of_nat (List.length remaining))) ;;
  print "" ;;
  report_next remaining.

End CheckTasks.

(** ** show_task.py *)

Module ShowTask.
Import Py Run Ops Reader.

Definition usage : string := "Usage: python show_task.py <task_id>".

(** [task_id] is an integer or [None]. *)
Definition parse_arg (argv : list string) : M (option Z) :=
  if (1 <? List.length argv)%nat then
    match int_of_str (nth 1 argv "") with
    | Some k => ret (Some k)
    | None => raise ValueError
    end
  else ret None.

(** [not task_id] *)
Definition falsy (task_id : option Z) : bool :=
  match task_id with
  | None => true
  | Some k => k =? 0
  end.

(** [v == task_id] *)
Definition eq_id (v : value) (task_id : option Z) : bool :=
  match task_id with
  | Some k => eq_int v k
  | None => match v with JNull => true | _ => false end
  end.

(** [f"{task_id}"] *)
Definition str_id (task_id : option Z) : string :=
  match task_id with
  | Some k => str_int k
  | None => "None"
  end.

(** Lines 14 to 17: the four [print] calls on the record found. *)
Definition print_task (t : value) : M unit :=
  id <- subscript t "id" ;;
  title <- subscript t "title" ;;
  print ("# " ++ str id ++ ": " ++ str title) ;;
  p <- get t "passes" (JBool false) ;;
  print ("passes: " ++ str p) ;;
  d <- get t "description" (JStr "") ;;
  print (newline ++ "Description:" ++ newline ++ str d) ;;
  a <- get t "acceptanceCriteria" (JStr "") ;;
  print (newline ++ "Acceptance criteria (Gherkin):" ++ newline ++ str a).

(** Lines 12 to 21: the [for ... else] loop; [break] ends it, the
    [else] branch runs when the items are used up. *)
Fixpoint scan (task_id : option Z) (items : list value) : M unit :=
  match items with
  | t :: rest =>
      id <- subscript t "id" ;;
      if eq_id id task_id then print_task t
      else scan task_id rest
  | [] =>
      print ("Task " ++ str_id task_id ++ " not found") ;;
      sys_exit 1
  end.

Definition show_task (argv : list string) (fs : filesystem) : M unit :=
  task_id <- parse_arg argv ;;
  (if falsy task_id then print usage ;; sys_exit 1 else ret tt) ;;
  obj <- load fs ;;
  tasks <- subscript obj "tasks" ;;
  items <- iter tasks ;;
  scan task_id items.

End ShowTask.

(** ** The two scripts as they are started *)

Module Main.
Import Py Run Reader CheckTasks ShowTask.

(** [check_tasks.py] (line 3) opens the store with
    [open('project-tasks.json')], which decodes the bytes with the
    locale's encoding; [show_task.py] (line 9) passes [encoding='utf-8']. *)
Inductive encoding : Type :=
| LocaleEncoding
| Utf8.

(** The files as [open] and [json.load] read them under each encoding. *)
Definition disk : Type := encoding -> filesystem.

Definition run_check_tasks (d : disk) : M unit := check_tasks (d LocaleEncoding).

Definition run_show_task (argv : list string) (d : disk) : M unit :=
  show_task argv (d Utf8).

End Main.

(** ** Stores and records, as the specification speaks of them *)

Module Store.
Import Py Run Ops Reader.

(** The task sequence of the store a file system holds, when the Reader
    gets one: the file parses to a mapping whose [tasks] is a list. *)
Definition tasks_of (fs : filesystem) : option (list value) :=
  match fs store_path with
  | Holds (JObject fields) =>
      match dict_get "tasks" fields with
      | Some (JList ts) => Some ts
      | _ => None
      end
  | _ => None
  end.

Definition is_mapping (t : value) : bool :=
  match t with
  | JObject _ => true
  | _ => false
  end.

(** The field [key] of a record, [None] when absent. *)
Definition field (key : string) (t : value) : option value :=
  match t with
  | JObject fields => dict_get key fields
  | _ => None
  end.

Definition field_or (key : string) (default : value) (t : value) : value :=
  match field key t with
  | Some v => v
  | None => default
  end.

Definition has_field (key : string) (t : value) : bool :=
  match field key t with
  | Some _ => true
  | None => false
  end.

(** Every element is a mapping. *)
Definition records (ts : list value) : Prop :=
  Forall (fun t => is_mapping t = true) ts.

(** Every element is a mapping with an [id]. *)
Definition identified (ts : list value) : Prop :=
  Forall (fun t => has_field "id" t = true) ts.

(** The invariant of the data model: every element is a mapping with at
    least an [id] and a [title]. *)
Definition well_formed (ts : list value) : Prop :=
  Forall (fun t => has_field "id" t = true /\ has_field "title" t = true) ts.

(** Passing: [passes] is truthy.  Remaining: [passes] is falsy or absent. *)
Definition is_passing (t : value) : bool := truthy (field_or "passes" (JBool false) t).
Definition is_remaining (t : value) : bool := negb (is_passing t).

Definition passing (ts : list value) : list value := filter is_passing ts.
Definition remaining (ts : list value) : list value := filter is_remaining ts.

(** The first element, in sequence order, that is not passing. *)
Definition first_remaining (ts : list value) : option value := find is_remaining ts.

(** The record has the identifier [k]. *)
Definition has_id (k : Z) (t : value) : bool :=
  match field "id" t with
  | Some v => eq_int v k
  | None => false
  end.

(** The first record, in sequence order, whose [id] equals [k]. *)
Definition first_with_id (k : Z) (ts : list value) : option value := find (has_id k) ts.

(** No two distinct records answer to the same identifier. *)
Definition unique_ids (ts : list value) : Prop :=
  forall t1 t2 k, In t1 ts -> In t2 ts ->
                  has_id k t1 = true -> has_id k t2 = true -> t1 = t2.

(** Lines 3 to 6 of [check_tasks.py], 9 to 12 of [show_task.py]: the
    exception on which reading the store ends, [None] when [data['tasks']]
    is reached and gives a value. *)
Definition load_failure (fs : filesystem) : option exn :=
  match fs store_path with
  | Absent => Some OSError
  | Malformed => Some JSONDecodeError
  | Holds (JObject fields) =>
      match dict_get "tasks" fields with
      | Some _ => None
      | None => Some (KeyError "tasks")
      end
  | Holds _ => Some TypeError
  end.

(** The value of [data['tasks']], when the store is read. *)
Definition tasks_value (fs : filesystem) : option value :=
  match fs store_path with
  | Holds (JObject fields) => dict_get "tasks" fields
  | _ => None
  end.

(** Values that are neither iterable nor sized: [None], booleans and
    numbers. *)
Definition is_scalar (v : value) : bool :=
  match v with
  | JNull | JBool _ | JInt _ | JFloat _ _ => true
  | _ => false
  end.

(** A string or a mapping: iterable, but not a list. *)
Definition is_text_or_mapping (v : value) : bool :=
  match v with
  | JStr _ | JObject _ => true
  | _ => false
  end.

End Store.

(** ** Stores used as examples *)

Module Examples.
Import Py Reader.

(** The store of the specification's examples. *)
Definition example_tasks : list value :=
  [JObject [("id", JInt 1); ("title", JStr "A"); ("passes", JBool true)];
   JObject [("id", JInt 2); ("title", JStr "B")]].

Definition example_fs : filesystem := holding (store_of example_tasks).

(** A store whose only record has no [title]. *)
Definition untitled_tasks : list value := [JObject [("id", JInt 1)]].

(** A store with a record whose [id] is 0. *)
Definition zero_tasks : list value := [JObject [("id", JInt 0); ("title", JStr "Z")]].

(** A store with the identifiers 3 and -3. *)
Definition signed_tasks : list value :=
  [JObject [("id", JInt 3); ("title", JStr "P")];
   JObject [("id", JInt (-3)); ("title", JStr "N"); ("passes", JBool true)]].

End Examples.

(** ** The lines the properties speak of *)

Module Expected.
Import Py Run Ops Reader Store ShowTask.

(** Summary Reporter: the three count lines and the blank line. *)
Definition count_lines (ts : list value) : list event :=
  [EvPrint ("Total: " ++ str_int (Z.of_nat (List.length ts)));
   EvPrint ("Passing: " ++ str_int (Z.of_nat (List.length (passing ts))));
   EvPrint ("Remaining: " ++ str_int (Z.of_nat (List.length (remaining ts))));
   EvPrint ""].

(** Task Detail Printer: the run that ends on the usage error. *)
Definition usage_error : M unit := ([EvPrint usage], inl (SysExit 1)).

(** Task Detail Printer, lines 9 to 21: what the script does once it
    holds an identifier. *)
Definition lookup (task_id : option Z) (fs : filesystem) : M unit :=
  obj <- load fs ;;
  tasks <- subscript obj "tasks" ;;
  items <- iter tasks ;;
  scan task_id items.

(** Task Detail Printer: the four lines printed for the record [t],
    whose [id] is [i] and whose [title] is [title]. *)
Definition detail_lines (i title : value) (t : value) : list event :=
  [EvPrint ("# " ++ str i ++ ": " ++ str title);
   EvPrint ("passes: " ++ str (field_or "passes" (JBool false) t));
   EvPrint (newline ++ "Description:" ++ newline
            ++ str (field_or "description" (JStr "") t));
   EvPrint (newline ++ "Acceptance criteria (Gherkin):" ++ newline
            ++ str (field_or "acceptanceCriteria" (JStr "") t))].

(** Summary Reporter: the report on a store without tasks. *)
Definition empty_report : M unit :=
  ([EvOpen store_path;
    EvPrint "Total: 0"; EvPrint "Passing: 0"; EvPrint "Remaining: 0"; EvPrint "";
    EvPrint "All tasks are passing!"],
   inr tt).

End Expected.

(** ** Laws of the run monad and of the operations *)

Module Laws.
Import Py Run Ops Reader Store.

Lemma bind_ret {A B} (a : A) (f : A -> M B) : bind (ret a) f = f a.
Proof. unfold bind, ret. destruct (f a); reflexivity. Qed.

Lemma bind_pure {A B} (tr : list event) (a : A) (f : A -> M B) :
  bind (tr, inr a) f = after tr (f a).
Proof. unfold bind, after, trace, ending. destruct (f a); reflexivity. Qed.

(** A run that has stopped stays stopped: what follows a [sys.exit] or
    an uncaught exception is not run. *)
Lemma bind_halt {A B} (tr : list event) (h : halt) (f : A -> M B) :
  bind (tr, inl h) f = (tr, inl h).
Proof. reflexivity. Qed.

Lemma bind_ret_r {A} (m : M A) : bind m ret = m.
Proof.
  destruct m as [tr [h|a]]; [reflexivity|].
  unfold bind, ret. rewrite app_nil_r. reflexivity.
Qed.

Lemma bind_assoc {A B C} (m : M A) (f : A -> M B) (g : B -> M C) :
  bind (bind m f) g = bind m (fun a => bind (f a) g).
Proof.
  destruct m as [tr [h|a]]; [reflexivity|]. unfold bind.
  destruct (f a) as [tr1 [h|b]]; [reflexivity|].
  destruct (g b) as [tr2 r]. rewrite app_assoc. reflexivity.
Qed.

Lemma bind_print {B} (text : string) (f : unit -> M B) :
  bind (print text) f = after [EvPrint text] (f tt).
Proof. unfold print, emit. apply bind_pure. Qed.

(** One step of a run: a pure value or a [print] in front. *)
Ltac run_step :=
  repeat first [rewrite bind_ret | rewrite bind_print | progress cbv beta].

Lemma load_holds (fs : filesystem) (doc : value) :
  fs store_path = Holds doc -> load fs = ([EvOpen store_path], inr doc).
Proof. intros H. unfold load. rewrite H. reflexivity. Qed.

Lemma tasks_of_holds (fs : filesystem) (ts : list value) :
  tasks_of fs = Some ts ->
  exists fields, fs store_path = Holds (JObject fields)
                 /\ dict_get "tasks" fields = Some (JList ts).
Proof.
  unfold tasks_of. intros H.
  destruct (fs store_path) as [| |doc]; try discriminate.
  destruct doc as [| | | | |?|fields]; try discriminate.
  exists fields. split; [reflexivity|].
  destruct (dict_get "tasks" fields) as [v|]; try discriminate.
  destruct v; try discriminate. congruence.
Qed.

(** The Reader's part of both scripts on a store that loads. *)
Lemma load_tasks {B} (fs : filesystem) (ts : list value) (f : list value -> M B) :
  tasks_of fs = Some ts ->
  (obj <- load fs ;; tasks <- subscript obj "tasks" ;; items <- iter tasks ;; f items)
  = after [EvOpen store_path] (f ts).
Proof.
  intros H. destruct (tasks_of_holds _ _ H) as (fields & Hfs & Hget).
  rewrite (load_holds _ _ Hfs), bind_pure. cbn [subscript]. rewrite Hget.
  rewrite bind_ret. cbn [iter]. rewrite bind_ret. reflexivity.
Qed.

Lemma get_mapping (t : value) (key : string) (default : value) :
  is_mapping t = true -> get t key default = ret (field_or key default t).
Proof.
  destruct t; try discriminate. intros _. unfold get, field_or, field.
  destruct (dict_get key fields); reflexivity.
Qed.

Lemma get_other (t : value) (key : string) (default : value) :
  is_mapping t = false -> get t key default = raise AttributeError.
Proof. destruct t; try discriminate; reflexivity. Qed.

Lemma subscript_field (t : value) (key : string) (v : value) :
  field key t = Some v -> subscript t key = ret v.
Proof.
  destruct t; try discriminate. unfold field, subscript. intros ->. reflexivity.
Qed.

Lemma subscript_missing (fields : list (string * value)) (key : string) :
  dict_get key fields = None -> subscript (JObject fields) key = raise (KeyError key).
Proof. unfold subscript. intros ->. reflexivity. Qed.

Lemma has_field_mapping (key : string) (t : value) :
  has_field key t = true -> is_mapping t = true.
Proof. destruct t; try discriminate; reflexivity. Qed.

Lemma has_field_some (key : string) (t : value) :
  has_field key t = true -> exists v, field key t = Some v.
Proof. unfold has_field. destruct (field key t) as [v|]; [eauto|discriminate]. Qed.

Lemma identified_records (ts : list value) : identified ts -> records ts.
Proof.
  unfold identified, records. intros H.
  eapply Forall_impl; [|exact H]. intros t. apply has_field_mapping.
Qed.

Lemma well_formed_identified (ts : list value) : well_formed ts -> identified ts.
Proof.
  unfold identified, well_formed. intros H.
  eapply Forall_impl; [|exact H]. intros t [Hid _]. exact Hid.
Qed.

End Laws.

(** ** Properties of the Summary Reporter *)

Module CheckTasksProps.
Import Py Run Ops Reader Store Examples Expected Laws CheckTasks.

(** On records, the two comprehensions are the two filters. *)
Lemma comprehension_passes (ts : list value) :
  records ts -> comprehension passes ts = ret (passing ts).
Proof.
  induction 1 as [|t ts Ht _ IH]; [reflexivity|].
  cbn [comprehension]. unfold passes at 1.
  rewrite (get_mapping _ _ _ Ht), !bind_ret, IH, bind_ret.
  unfold passing. cbn [filter]. fold (is_passing t). reflexivity.
Qed.

Lemma comprehension_not_passes (ts : list value) :
  records ts -> comprehension not_passes ts = ret (remaining ts).
Proof.
  induction 1 as [|t ts Ht _ IH]; [reflexivity|].
  cbn [comprehension]. unfold not_passes at 1.
  rewrite (get_mapping _ _ _ Ht), !bind_ret, IH, bind_ret.
  unfold remaining. cbn [filter]. fold (is_passing t). fold (is_remaining t).
  reflexivity.
Qed.

(** An element that is not a mapping stops the first comprehension. *)
Lemma comprehension_not_records (ts : list value) :
  ~ records ts ->
  comprehension not_passes ts = raise AttributeError.
Proof.
  induction ts as [|t ts IH]; intros Hn.
  - destruct Hn. constructor.
  - cbn [comprehension]. unfold not_passes at 1.
    destruct (is_mapping t) eqn:Ht.
    + rewrite (get_mapping _ _ _ Ht), !bind_ret, IH; [reflexivity|].
      intros Hts. apply Hn. constructor; assumption.
    + rewrite (get_other _ _ _ Ht). reflexivity.
Qed.

Lemma records_dec (ts : list value) : records ts \/ ~ records ts.
Proof.
  induction ts as [|t ts [IH|IH]].
  - left. constructor.
  - destruct (is_mapping t) eqn:Ht.
    + left. constructor; assumption.
    + right. intros H. inversion H; congruence.
  - right. intros H. inversion H; contradiction.
Qed.

(** Every record falls in exactly one of the two partitions. *)
Lemma partition_counts (ts : list value) :
  (List.length ts = List.length (passing ts) + List.length (remaining ts))%nat.
Proof.
  unfold passing, remaining, is_remaining.
  induction ts as [|t ts IH]; [reflexivity|].
  cbn [filter List.length]. destruct (is_passing t); cbn [negb List.length]; lia.
Qed.

Lemma partition_exclusive (ts : list value) (t : value) :
  In t ts ->
  (In t (passing ts) /\ ~ In t (remaining ts))
  \/ (~ In t (passing ts) /\ In t (remaining ts)).
Proof.
  intros Hin. unfold passing, remaining, is_remaining.
  destruct (is_passing t) eqn:Hp; [left|right]; split.
  - apply filter_In. auto.
  - intros H. apply filter_In in H. rewrite Hp in H. destruct H; discriminate.
  - intros H. apply filter_In in H. destruct H; congruence.
  - apply filter_In. rewrite Hp. auto.
Qed.

(** The run of [check_tasks] on a store of records: the file is opened,
    the counts are printed, then lines 14 to 20 run on the remaining
    partition. *)
Lemma check_tasks_records (fs : filesystem) (ts : list value) :
  tasks_of fs = Some ts -> records ts ->
  check_tasks fs
  = after (EvOpen store_path :: count_lines ts) (report_next (remaining ts)).
Proof.
  intros Hfs Hrec. unfold check_tasks.
  destruct (tasks_of_holds _ _ Hfs) as (fields & Hfile & Hget).
  rewrite (load_holds _ _ Hfile), bind_pure. cbn [subscript]. rewrite Hget.
  rewrite bind_ret. cbn [iter len]. rewrite bind_ret.
  rewrite (comprehension_not_passes _ Hrec). run_step.
  rewrite (comprehension_passes _ Hrec). run_step.
  reflexivity.
Qed.

Lemma check_tasks_not_records (fs : filesystem) (ts : list value) :
  tasks_of fs = Some ts -> ~ records ts ->
  check_tasks fs = ([EvOpen store_path], inl (Uncaught AttributeError)).
Proof.
  intros Hfs Hrec. unfold check_tasks.
  destruct (tasks_of_holds _ _ Hfs) as (fields & Hfile & Hget).
  rewrite (load_holds _ _ Hfile), bind_pure. cbn [subscript]. rewrite Hget.
  rewrite bind_ret. cbn [iter]. rewrite bind_ret.
  rewrite (comprehension_not_records _ Hrec). reflexivity.
Qed.

(** The head of the remaining partition is the first not-passing
    element of the sequence. *)
Lemma remaining_head (ts : list value) :
  first_remaining ts = hd_error (remaining ts).
Proof.
  unfold first_remaining, remaining.
  induction ts as [|t ts IH]; [reflexivity|].
  cbn [find filter]. destruct (is_remaining t); [reflexivity|exact IH].
Qed.

Lemma report_next_fields (t i title : value) (rest : list value) :
  field "id" t = Some i -> field "title" t = Some title ->
  report_next (t :: rest)
  = ([EvPrint "Next not-passing task:";
      EvPrint ("  ID: " ++ str i);
      EvPrint ("  Title: " ++ str title)], inr tt).
Proof.
  intros Hi Ht. unfold report_next.
  rewrite (subscript_field _ _ _ Hi), (subscript_field _ _ _ Ht). run_step.
  reflexivity.
Qed.

(** Without an [id] or a [title] the report stops on a [KeyError]. *)
Lemma report_next_incomplete (t : value) (rest : list value) :
  is_mapping t = true ->
  has_field "id" t && has_field "title" t = false ->
  exists tr key, report_next (t :: rest) = (tr, inl (Uncaught (KeyError key))).
Proof.
  destruct t as [| | | | | |fields]; try discriminate. intros _.
  unfold has_field, field, report_next, subscript.
  destruct (dict_get "id" fields) as [i|].
  - destruct (dict_get "title" fields) as [title|]; [discriminate|].
    intros _. run_step. eexists _, _. reflexivity.
  - intros _. run_step. eexists _, _. reflexivity.
Qed.

Lemma exit_status_after {A} (tr : list event) (m : M A) :
  exit_status (after tr m) = exit_status m.
Proof. reflexivity. Qed.

(** On a store that keeps the invariant of the data model the Summary
    Reporter ends normally. *)
Lemma check_tasks_well_formed (fs : filesystem) (ts : list value) :
  tasks_of fs = Some ts -> well_formed ts -> exit_status (check_tasks fs) = 0.
Proof.
  intros Hfs Hwf.
  pose proof (identified_records _ (well_formed_identified _ Hwf)) as Hrec.
  rewrite (check_tasks_records _ _ Hfs Hrec), exit_status_after.
  destruct (remaining ts) as [|t rest] eqn:Hrem; [reflexivity|].
  assert (Hin : In t ts).
  { assert (H : In t (remaining ts)) by (rewrite Hrem; left; reflexivity).
    apply filter_In in H. tauto. }
  unfold well_formed in Hwf. rewrite Forall_forall in Hwf.
  destruct (Hwf t Hin) as [Hi Ht].
  destruct (has_field_some _ _ Hi) as [i Hi'].
  destruct (has_field_some _ _ Ht) as [title Ht'].
  rewrite (report_next_fields _ _ _ _ Hi' Ht'). reflexivity.
Qed.

(** C4.  For every well-formed store (all that is used of it: every
    element is a mapping), the Summary Reporter opens the file and then
    prints the three counts, and the total it prints is the sum of the
    passing and the remaining counts it prints; every record of the store
    lies in exactly one of the two partitions. *)
Theorem check_tasks_total_is_sum (fs : filesystem) (ts : list value) :
  tasks_of fs = Some ts -> records ts ->
  let p := Z.of_nat (List.length (passing ts)) in
  let r := Z.of_nat (List.length (remaining ts)) in
  (exists tail,
      trace (check_tasks fs)
      = EvOpen store_path
        :: EvPrint ("Total: " ++ str_int (p + r))
        :: EvPrint ("Passing: " ++ str_int p)
        :: EvPrint ("Remaining: " ++ str_int r)
        :: tail)
  /\ (forall t, In t ts ->
        (In t (passing ts) /\ ~ In t (remaining ts))
        \/ (~ In t (passing ts) /\ In t (remaining ts))).
Proof.
  intros Hfs Hrec p r. split; [|apply partition_exclusive].
  rewrite (check_tasks_records _ _ Hfs Hrec). unfold count_lines, after, trace at 1.
  cbn [fst app]. subst p r.
  rewrite <- Nat2Z.inj_add, <- partition_counts.
  eexists. reflexivity.
Qed.

Lemma check_tasks_total_is_sum_witness :
  tasks_of example_fs = Some example_tasks
  /\ records example_tasks
  /\ exists tail,
      trace (check_tasks example_fs)
      = EvOpen store_path
        :: EvPrint "Total: 2" :: EvPrint "Passing: 1" :: EvPrint "Remaining: 1"
        :: tail.
Proof.
  assert (Hfs : tasks_of example_fs = Some example_tasks)
    by reflexivity.
  assert (Hrec : records example_tasks) by (repeat constructor).
  split; [exact Hfs|]. split; [exact Hrec|].
  exact (proj1 (check_tasks_total_is_sum _ _ Hfs Hrec)).
Defined.

(** C5.  For every store of records whose remaining partition is not
    empty, the task whose [id] and [title] the Summary Reporter prints
    after "Next not-passing task:" is the first element of the sequence
    whose [passes] is falsy or absent: with [t] that element, the lines
    printed are its [id] and its [title], and the run ends normally. *)
Theorem check_tasks_next_is_first_remaining
    (fs : filesystem) (ts : list value) (t i title : value) :
  tasks_of fs = Some ts -> records ts ->
  first_remaining ts = Some t ->
  field "id" t = Some i -> field "title" t = Some title ->
  check_tasks fs
  = ((EvOpen store_path :: count_lines ts
       ++ [EvPrint "Next not-passing task:";
           EvPrint ("  ID: " ++ str i);
           EvPrint ("  Title: " ++ str title)])%list,
     inr tt).
Proof.
  intros Hfs Hrec Hfirst Hi Ht.
  rewrite (check_tasks_records _ _ Hfs Hrec).
  rewrite remaining_head in Hfirst.
  destruct (remaining ts) as [|t' rest]; [discriminate|].
  injection Hfirst as ->.
  rewrite (report_next_fields _ _ _ _ Hi Ht). reflexivity.
Qed.

Lemma check_tasks_next_is_first_remaining_witness :
  check_tasks example_fs
  = ([EvOpen store_path;
      EvPrint "Total: 2"; EvPrint "Passing: 1"; EvPrint "Remaining: 1"; EvPrint "";
      EvPrint "Next not-passing task:"; EvPrint "  ID: 2"; EvPrint "  Title: B"],
     inr tt).
Proof.
  apply (check_tasks_next_is_first_remaining
           example_fs example_tasks
           (JObject [("id", JInt 2); ("title", JStr "B")]) (JInt 2) (JStr "B")).
  - reflexivity.
  - repeat constructor.
  - reflexivity.
  - reflexivity.
  - reflexivity.
Defined.

(** C8, as the specification states it, fails: the store
    [{"tasks": [{"id": 1}]}] loads, the counts and the [ID] line are
    printed, and [t["title"]] then raises [KeyError]; the exit status
    is 1. *)
Lemma check_tasks_untitled_fails :
  tasks_of (holding (store_of untitled_tasks)) = Some untitled_tasks
  /\ check_tasks (holding (store_of untitled_tasks))
     = ([EvOpen store_path;
         EvPrint "Total: 1"; EvPrint "Passing: 0"; EvPrint "Remaining: 1"; EvPrint "";
         EvPrint "Next not-passing task:"; EvPrint "  ID: 1"],
        inl (Uncaught (KeyError "title")))
  /\ exit_status (check_tasks (holding (store_of untitled_tasks))) <> 0.
Proof. repeat split. discriminate. Qed.

(** C8, amended.  For every store the Reader loads (the file parses to a
    mapping whose [tasks] is a list), the Summary Reporter terminates
    with exit status 0 exactly when every element is a mapping and the
    first not-passing element, if there is one, has an [id] and a
    [title]. *)
Theorem check_tasks_exit_status (fs : filesystem) (ts : list value) :
  tasks_of fs = Some ts ->
  (exit_status (check_tasks fs) = 0
   <-> records ts
       /\ forall t, first_remaining ts = Some t ->
                    has_field "id" t = true /\ has_field "title" t = true).
Proof.
  intros Hfs. destruct (records_dec ts) as [Hrec|Hrec].
  - rewrite (check_tasks_records _ _ Hfs Hrec), remaining_head.
    rewrite exit_status_after.
    assert (Hmap : forall t, In t (remaining ts) -> is_mapping t = true).
    { intros t Ht. apply filter_In in Ht. destruct Ht as [Ht _].
      unfold records in Hrec. rewrite Forall_forall in Hrec. auto. }
    destruct (remaining ts) as [|t rest].
    + split; [|reflexivity]. intros _. split; [exact Hrec|]. discriminate.
    + destruct (has_field "id" t && has_field "title" t) eqn:Hboth.
      * apply andb_true_iff in Hboth. destruct Hboth as [Hi Ht].
        destruct (has_field_some _ _ Hi) as [i Hi'].
        destruct (has_field_some _ _ Ht) as [title Ht'].
        rewrite (report_next_fields _ _ _ _ Hi' Ht').
        split; [|reflexivity]. intros _. split; [exact Hrec|].
        intros t' [= <-]. auto.
      * destruct (report_next_incomplete t rest (Hmap t (or_introl eq_refl)) Hboth)
          as (tr & key & ->).
        split; [discriminate|]. intros [_ H].
        destruct (H t eq_refl) as [Hi Ht]. rewrite Hi, Ht in Hboth. discriminate.
  - rewrite (check_tasks_not_records _ _ Hfs Hrec).
    split; [discriminate|]. intros [H _]. contradiction.
Qed.

Lemma check_tasks_exit_status_witness :
  exit_status (check_tasks example_fs) = 0
  <-> records example_tasks
      /\ forall t, first_remaining example_tasks = Some t ->
                   has_field "id" t = true /\ has_field "title" t = true.
Proof.
  apply (check_tasks_exit_status example_fs example_tasks).
  reflexivity.
Defined.

(** C9.  For the store whose [tasks] sequence is empty the Summary
    Reporter prints [Total: 0], [Passing: 0], [Remaining: 0], a blank
    line and the "all tasks are passing" message, and nothing else: no
    identifier and no title. *)
Theorem check_tasks_empty_store (fs : filesystem) :
  tasks_of fs = Some [] ->
  check_tasks fs
  = ([EvOpen store_path;
      EvPrint "Total: 0"; EvPrint "Passing: 0"; EvPrint "Remaining: 0"; EvPrint "";
      EvPrint "All tasks are passing!"],
     inr tt).
Proof.
  intros Hfs. rewrite (check_tasks_records _ _ Hfs (Forall_nil _)). reflexivity.
Qed.

Lemma check_tasks_empty_store_witness :
  check_tasks (holding (store_of []))
  = ([EvOpen store_path;
      EvPrint "Total: 0"; EvPrint "Passing: 0"; EvPrint "Remaining: 0"; EvPrint "";
      EvPrint "All tasks are passing!"],
     inr tt).
Proof. apply (check_tasks_empty_store (holding (store_of []))). reflexivity. Defined.

End CheckTasksProps.

(** ** Properties of the Task Detail Printer *)

Module ShowTaskProps.
Import Py Run Ops Reader Store Examples Expected Laws ShowTask.

(** *** The argument check *)

Lemma parse_arg_absent (argv : list string) :
  (List.length argv <= 1)%nat -> parse_arg argv = ret None.
Proof.
  intros H. unfold parse_arg.
  destruct (Nat.ltb_spec 1 (List.length argv)); [lia|reflexivity].
Qed.

Lemma parse_arg_present (argv : list string) :
  (1 < List.length argv)%nat ->
  parse_arg argv
  = match int_of_str (nth 1 argv "") with
    | Some k => ret (Some k)
    | None => raise ValueError
    end.
Proof.
  intros H. unfold parse_arg.
  destruct (Nat.ltb_spec 1 (List.length argv)); [reflexivity|lia].
Qed.

Lemma show_task_absent (argv : list string) (fs : filesystem) :
  (List.length argv <= 1)%nat -> show_task argv fs = usage_error.
Proof.
  intros H. unfold show_task. rewrite (parse_arg_absent _ H), bind_ret.
  reflexivity.
Qed.

Lemma show_task_zero (argv : list string) (fs : filesystem) :
  (1 < List.length argv)%nat -> int_of_str (nth 1 argv "") = Some 0 ->
  show_task argv fs = usage_error.
Proof.
  intros H H0. unfold show_task. rewrite (parse_arg_present _ H), H0, bind_ret.
  reflexivity.
Qed.

Lemma show_task_unparsable (argv : list string) (fs : filesystem) :
  (1 < List.length argv)%nat -> int_of_str (nth 1 argv "") = None ->
  show_task argv fs = ([], inl (Uncaught ValueError)).
Proof.
  intros H H0. unfold show_task. rewrite (parse_arg_present _ H), H0.
  reflexivity.
Qed.

Lemma show_task_nonzero (argv : list string) (fs : filesystem) (k : Z) :
  (1 < List.length argv)%nat -> int_of_str (nth 1 argv "") = Some k -> k <> 0 ->
  show_task argv fs = lookup (Some k) fs.
Proof.
  intros H Hk Hnz. unfold show_task, lookup.
  rewrite (parse_arg_present _ H), Hk, bind_ret. cbn [falsy].
  destruct (Z.eqb_spec k 0) as [|_]; [contradiction|].
  rewrite bind_ret. reflexivity.
Qed.

(** *** The loop *)

Lemma print_task_fields (t i title : value) :
  field "id" t = Some i -> field "title" t = Some title ->
  print_task t = (detail_lines i title t, inr tt).
Proof.
  intros Hi Ht. unfold print_task.
  assert (Hm : is_mapping t = true) by (destruct t; try discriminate; reflexivity).
  rewrite (subscript_field _ _ _ Hi), (subscript_field _ _ _ Ht), !(get_mapping _ _ _ Hm).
  run_step. reflexivity.
Qed.

Lemma scan_hit (k : Z) (ts : list value) (t : value) :
  identified ts -> first_with_id k ts = Some t -> scan (Some k) ts = print_task t.
Proof.
  unfold first_with_id.
  induction 1 as [|t' ts Hid _ IH]; [discriminate|].
  cbn [find scan]. destruct (has_field_some _ _ Hid) as [i Hi].
  rewrite (subscript_field _ _ _ Hi), bind_ret.
  unfold has_id at 1. rewrite Hi. cbn [eq_id].
  destruct (eq_int i k); [intros [= ->]; reflexivity|exact IH].
Qed.

Lemma scan_miss (k : Z) (ts : list value) :
  identified ts -> first_with_id k ts = None ->
  scan (Some k) ts = ([EvPrint ("Task " ++ str_int k ++ " not found")], inl (SysExit 1)).
Proof.
  unfold first_with_id.
  induction 1 as [|t' ts Hid _ IH]; [reflexivity|].
  cbn [find scan]. destruct (has_field_some _ _ Hid) as [i Hi].
  rewrite (subscript_field _ _ _ Hi), bind_ret.
  unfold has_id at 1. rewrite Hi. cbn [eq_id].
  destruct (eq_int i k); [discriminate|exact IH].
Qed.

Lemma first_with_id_has_id (k : Z) (ts : list value) (t : value) :
  first_with_id k ts = Some t ->
  exists i, field "id" t = Some i /\ eq_int i k = true.
Proof.
  intros H. apply find_some in H. destruct H as [_ H]. unfold has_id in H.
  destruct (field "id" t) as [i|]; [eauto|discriminate].
Qed.


(** *** Where the usage message can come from *)

Lemma trace_bind_in {A B} (e : event) (m : M A) (f : A -> M B) :
  In e (trace (bind m f)) -> In e (trace m) \/ exists a, In e (trace (f a)).
Proof.
  destruct m as [tr [h|a]]; cbn; [auto|].
  destruct (f a) as [tr' r] eqn:Hf. cbn. intros H.
  apply in_app_or in H. destruct H as [H|H]; [auto|].
  right. exists a. rewrite Hf. exact H.
Qed.

Lemma trace_bind_prefix {A B} (m : M A) (f : A -> M B) :
  exists tl, trace (bind m f) = (trace m ++ tl)%list.
Proof.
  destruct m as [tr [h|a]]; cbn.
  - exists []. symmetry. apply app_nil_r.
  - destruct (f a) as [tr' r]. exists tr'. reflexivity.
Qed.

Lemma trace_subscript (v : value) (key : string) : trace (subscript v key) = [].
Proof.
  destruct v; try reflexivity. cbn. destruct (dict_get key fields); reflexivity.
Qed.

Lemma trace_get (v : value) (key : string) (default : value) :
  trace (get v key default) = [].
Proof.
  destruct v; try reflexivity. cbn. destruct (dict_get key fields); reflexivity.
Qed.

Lemma trace_iter (v : value) : trace (iter v) = [].
Proof. destruct v; reflexivity. Qed.

(** Splits [In e (trace m)] along the binds of [m]; what is left are the
    [print] calls. *)
Ltac split_trace H :=
  repeat match type of H with
    | In _ (trace (bind _ _)) =>
        apply trace_bind_in in H; destruct H as [H|[? H]]
    | In _ (trace (subscript _ _)) => rewrite trace_subscript in H; destruct H
    | In _ (trace (get _ _ _)) => rewrite trace_get in H; destruct H
    | In _ (trace (iter _)) => rewrite trace_iter in H; destruct H
    | In _ (trace (print _)) => destruct H as [H|[]]
    | In _ (trace (sys_exit _)) => destruct H
    | In _ (trace (ret _)) => destruct H
    end.

Lemma print_task_no_usage (t : value) : ~ In (EvPrint usage) (trace (print_task t)).
Proof.
  intros H. unfold print_task in H. split_trace H; discriminate H.
Qed.

Lemma scan_no_usage (task_id : option Z) (items : list value) :
  ~ In (EvPrint usage) (trace (scan task_id items)).
Proof.
  induction items as [|t rest IH]; intros H; cbn [scan] in H.
  - split_trace H. discriminate H.
  - split_trace H. destruct (eq_id _ task_id).
    + exact (print_task_no_usage _ H).
    + exact (IH H).
Qed.

Lemma lookup_no_usage (task_id : option Z) (fs : filesystem) :
  ~ In (EvPrint usage) (trace (lookup task_id fs)).
Proof.
  intros H. unfold lookup, load in H. split_trace H.
  - destruct H as [H|[]]. discriminate H.
  - destruct (fs store_path); destruct H.
  - exact (scan_no_usage _ _ H).
Qed.

Lemma lookup_opens (task_id : option Z) (fs : filesystem) :
  hd_error (trace (lookup task_id fs)) = Some (EvOpen store_path).
Proof.
  unfold lookup.
  destruct (trace_bind_prefix (load fs)
              (fun obj => tasks <- subscript obj "tasks" ;; items <- iter tasks ;;
                          scan task_id items)) as [tl ->].
  unfold load, emit. rewrite bind_pure. reflexivity.
Qed.

(** *** The claims *)

(** C1, as the specification states it, fails at the identifier 0: the
    store [{"tasks": [{"id": 0, "title": "Z"}]}] has a record with that
    [id], and [show_task.py 0] prints the usage message and exits with
    status 1. *)
Lemma show_task_zero_id_not_shown :
  first_with_id 0 zero_tasks = Some (JObject [("id", JInt 0); ("title", JStr "Z")])
  /\ int_of_str "0" = Some 0
  /\ show_task ["show_task.py"; "0"] (holding (store_of zero_tasks))
     = ([EvPrint usage], inl (SysExit 1))
  /\ exit_status (show_task ["show_task.py"; "0"] (holding (store_of zero_tasks))) <> 0.
Proof. repeat split. discriminate. Qed.

(** C1, amended.  For every store in which every element is a mapping
    with an [id], and every identifier [k] other than 0 that is the [id]
    of some record: with [t] the first record in sequence order whose
    [id] equals [k] and [title] its title, the Task Detail Printer called
    with an argument that reads as [k] opens the store, prints the header
    with the [id] and the [title] of [t], its [passes] (default [False]),
    its [description] (default empty) and its [acceptanceCriteria]
    (default empty), prints nothing else, and ends with exit status 0. *)
Theorem show_task_prints_first_match
    (prog s : string) (more : list string) (fs : filesystem)
    (ts : list value) (k : Z) (t title : value) :
  int_of_str s = Some k -> k <> 0 ->
  tasks_of fs = Some ts -> identified ts ->
  first_with_id k ts = Some t ->
  field "title" t = Some title ->
  exists i,
    field "id" t = Some i /\ eq_int i k = true
    /\ show_task (prog :: s :: more) fs
       = (EvOpen store_path :: detail_lines i title t, inr tt)
    /\ exit_status (show_task (prog :: s :: more) fs) = 0.
Proof.
  intros Hk Hnz Hfs Hid Hfirst Htitle.
  destruct (first_with_id_has_id _ _ _ Hfirst) as (i & Hi & Heq).
  exists i. split; [exact Hi|]. split; [exact Heq|].
  assert (Hrun : show_task (prog :: s :: more) fs
                 = (EvOpen store_path :: detail_lines i title t, inr tt)).
  { rewrite (show_task_nonzero _ fs k); [|cbn; lia|exact Hk|exact Hnz].
    unfold lookup. rewrite (load_tasks _ _ _ Hfs), (scan_hit _ _ _ Hid Hfirst).
    rewrite (print_task_fields _ _ _ Hi Htitle). reflexivity. }
  split; [exact Hrun|]. rewrite Hrun. reflexivity.
Qed.

Lemma show_task_prints_first_match_witness :
  exists i,
    field "id" (JObject [("id", JInt 2); ("title", JStr "B")]) = Some i
    /\ eq_int i 2 = true
    /\ show_task ["show_task.py"; "2"] example_fs
       = (EvOpen store_path
            :: detail_lines i (JStr "B") (JObject [("id", JInt 2); ("title", JStr "B")]),
          inr tt)
    /\ exit_status (show_task ["show_task.py"; "2"] example_fs) = 0.
Proof.
  apply (show_task_prints_first_match
           "show_task.py" "2" [] example_fs example_tasks 2
           (JObject [("id", JInt 2); ("title", JStr "B")]) (JStr "B")).
  - reflexivity.
  - lia.
  - reflexivity.
  - repeat constructor.
  - reflexivity.
  - reflexivity.
Defined.

(** C2, as the specification states it, fails on an argument that does
    not read as an integer: [show_task.py abc] prints nothing on the
    standard output, so no usage message, and ends on the [ValueError]
    that [int] raises. *)
Lemma show_task_unparsable_prints_no_usage :
  int_of_str "abc" = None
  /\ show_task ["show_task.py"; "abc"] example_fs = ([], inl (Uncaught ValueError))
  /\ ~ In (EvPrint usage) (trace (show_task ["show_task.py"; "abc"] example_fs)).
Proof. repeat split. intros []. Qed.

(** C2, amended.  When the single argument reads as the integer 0 (the
    one falsy identifier), the Task Detail Printer prints the usage
    message on the standard output and exits with status 1.  When the
    argument does not read as an integer, it prints nothing on the
    standard output and ends with exit status 1 on an uncaught
    [ValueError]. *)
Theorem show_task_unusable_argument (prog s : string) (fs : filesystem) :
  (int_of_str s = Some 0 ->
   show_task [prog; s] fs = ([EvPrint usage], inl (SysExit 1))
   /\ exit_status (show_task [prog; s] fs) = 1)
  /\ (int_of_str s = None ->
      show_task [prog; s] fs = ([], inl (Uncaught ValueError))
      /\ exit_status (show_task [prog; s] fs) = 1).
Proof.
  split; intros H.
  - rewrite (show_task_zero [prog; s] fs); [split; reflexivity|cbn; lia|exact H].
  - rewrite (show_task_unparsable [prog; s] fs); [split; reflexivity|cbn; lia|exact H].
Qed.

Lemma show_task_unusable_argument_witness :
  (show_task ["show_task.py"; "-0"] example_fs = ([EvPrint usage], inl (SysExit 1))
   /\ exit_status (show_task ["show_task.py"; "-0"] example_fs) = 1)
  /\ (show_task ["show_task.py"; "1.5"] example_fs = ([], inl (Uncaught ValueError))
      /\ exit_status (show_task ["show_task.py"; "1.5"] example_fs) = 1).
Proof.
  split.
  - apply (proj1 (show_task_unusable_argument "show_task.py" "-0" example_fs)).
    reflexivity.
  - apply (proj2 (show_task_unusable_argument "show_task.py" "1.5" example_fs)).
    reflexivity.
Defined.

(** C3.  For every store, the Task Detail Printer called with the
    argument [0] does what it does without an argument: it prints the
    usage message and exits with status 1, whatever the store holds, a
    record whose [id] is 0 included. *)
Theorem show_task_zero_is_no_argument (prog : string) (fs : filesystem) :
  show_task [prog; "0"] fs = show_task [prog] fs
  /\ show_task [prog; "0"] fs = ([EvPrint usage], inl (SysExit 1))
  /\ exit_status (show_task [prog; "0"] fs) = 1.
Proof. repeat split. Qed.

(** C6.  Called with no argument, the Task Detail Printer prints the
    usage message and exits with status 1; the run has no other event,
    so the task store is neither opened nor parsed. *)
Theorem show_task_no_argument (argv : list string) (fs : filesystem) :
  (List.length argv <= 1)%nat ->
  show_task argv fs = ([EvPrint usage], inl (SysExit 1))
  /\ exit_status (show_task argv fs) = 1
  /\ forall path, ~ In (EvOpen path) (trace (show_task argv fs)).
Proof.
  intros H. rewrite (show_task_absent _ fs H). repeat split.
  intros path [Hin|[]]. discriminate Hin.
Qed.

Lemma show_task_no_argument_witness :
  show_task ["show_task.py"] example_fs = ([EvPrint usage], inl (SysExit 1))
  /\ exit_status (show_task ["show_task.py"] example_fs) = 1
  /\ forall path, ~ In (EvOpen path) (trace (show_task ["show_task.py"] example_fs)).
Proof. apply (show_task_no_argument ["show_task.py"] example_fs). cbn. lia. Defined.




(** C10.  The usage message is printed exactly when there is no
    argument or the argument reads as 0.  For every argument that reads
    as an integer [k] other than 0, negative ones included, the Task
    Detail Printer opens the store first and looks [k] up: in a store of
    mappings with an [id] it prints the detail lines of the first record
    whose [id] equals [k] (given that record has a [title]) and ends
    normally, and it prints "Task k not found" and exits with status 1
    when no record has that [id]. *)
Theorem show_task_usage_only_without_identifier (argv : list string) (fs : filesystem) :
  (In (EvPrint usage) (trace (show_task argv fs))
   <-> (List.length argv <= 1)%nat \/ int_of_str (nth 1 argv "") = Some 0)
  /\ (forall k,
        (1 < List.length argv)%nat -> int_of_str (nth 1 argv "") = Some k -> k <> 0 ->
        hd_error (trace (show_task argv fs)) = Some (EvOpen store_path)
        /\ forall ts,
             tasks_of fs = Some ts -> identified ts ->
             (forall t title,
                 first_with_id k ts = Some t -> field "title" t = Some title ->
                 exists i,
                   field "id" t = Some i /\ eq_int i k = true
                   /\ show_task argv fs
                      = (EvOpen store_path :: detail_lines i title t, inr tt))
             /\ (first_with_id k ts = None ->
                 show_task argv fs
                 = ([EvOpen store_path; EvPrint ("Task " ++ str_int k ++ " not found")],
                    inl (SysExit 1)))).
Proof.
  split.
  - split.
    + intros Hin. destruct (Nat.le_gt_cases (List.length argv) 1) as [Hlen|Hlen]; [auto|].
      right. destruct (int_of_str (nth 1 argv "")) as [k|] eqn:Hk.
      * destruct (Z.eq_dec k 0) as [->|Hnz]; [reflexivity|].
        rewrite (show_task_nonzero _ fs k Hlen Hk Hnz) in Hin.
        destruct (lookup_no_usage _ _ Hin).
      * rewrite (show_task_unparsable _ fs Hlen Hk) in Hin. destruct Hin.
    + intros [Hlen|Hzero].
      * rewrite (show_task_absent _ fs Hlen). left. reflexivity.
      * destruct (Nat.le_gt_cases (List.length argv) 1) as [Hlen|Hlen].
        -- rewrite (show_task_absent _ fs Hlen). left. reflexivity.
        -- rewrite (show_task_zero _ fs Hlen Hzero). left. reflexivity.
  - intros k Hlen Hk Hnz. rewrite (show_task_nonzero _ fs k Hlen Hk Hnz).
    split; [apply lookup_opens|].
    intros ts Hfs Hid. unfold lookup. rewrite (load_tasks _ _ _ Hfs). split.
    + intros t title Hfirst Htitle.
      destruct (first_with_id_has_id _ _ _ Hfirst) as (i & Hi & Heq).
      exists i. split; [exact Hi|]. split; [exact Heq|].
      rewrite (scan_hit _ _ _ Hid Hfirst), (print_task_fields _ _ _ Hi Htitle).
      reflexivity.
    + intros Hnone. rewrite (scan_miss _ _ Hid Hnone). reflexivity.
Qed.

Lemma show_task_usage_only_without_identifier_witness :
  hd_error (trace (show_task ["show_task.py"; "-3"] (holding (store_of signed_tasks))))
  = Some (EvOpen store_path)
  /\ show_task ["show_task.py"; "-3"] (holding (store_of signed_tasks))
     = ([EvOpen store_path;
         EvPrint "# -3: N"; EvPrint "passes: True";
         EvPrint (newline ++ "Description:" ++ newline);
         EvPrint (newline ++ "Acceptance criteria (Gherkin):" ++ newline)],
        inr tt)
  /\ show_task ["show_task.py"; "-3"] example_fs
     = ([EvOpen store_path; EvPrint "Task -3 not found"], inl (SysExit 1)).
Proof.
  split; [|split].
  - apply (proj2 (show_task_usage_only_without_identifier
                    ["show_task.py"; "-3"] (holding (store_of signed_tasks))) (-3)).
    + cbn. lia.
    + reflexivity.
    + lia.
  - destruct (proj2 (show_task_usage_only_without_identifier
                       ["show_task.py"; "-3"] (holding (store_of signed_tasks))) (-3))
      as [_ Hlookup].
    + cbn. lia.
    + reflexivity.
    + lia.
    + destruct (Hlookup signed_tasks) as [Hfound _].
      * reflexivity.
      * repeat constructor.
      * destruct (Hfound (JObject [("id", JInt (-3)); ("title", JStr "N");
                                   ("passes", JBool true)]) (JStr "N"))
          as (i & Hi & _ & Hrun).
        -- reflexivity.
        -- reflexivity.
        -- injection Hi as <-. exact Hrun.
  - destruct (proj2 (show_task_usage_only_without_identifier
                       ["show_task.py"; "-3"] example_fs) (-3))
      as [_ Hlookup].
    + cbn. lia.
    + reflexivity.
    + lia.
    + destruct (Hlookup example_tasks) as [_ Hmiss].
      * reflexivity.
      * repeat constructor.
      * apply Hmiss. reflexivity.
Defined.

End ShowTaskProps.

(** ** Reading the store, whatever it holds *)

Module ReaderLaws.
Import Py Run Ops Reader Store Expected Laws.

(** Both scripts start with [load] and [data['tasks']]. *)
Lemma load_value {B} (fs : filesystem) (v : value) (f : value -> M B) :
  tasks_value fs = Some v ->
  (data <- load fs ;; tasks <- subscript data "tasks" ;; f tasks)
  = after [EvOpen store_path] (f v).
Proof.
  unfold tasks_value. intros H.
  destruct (fs store_path) as [| |doc] eqn:Hfs; try discriminate.
  destruct doc as [| | | | | |fields]; try discriminate.
  rewrite (load_holds _ _ Hfs), bind_pure. cbn [subscript]. rewrite H, bind_ret.
  reflexivity.
Qed.

Lemma load_fails {B} (fs : filesystem) (e : exn) (f : value -> M B) :
  load_failure fs = Some e ->
  (data <- load fs ;; tasks <- subscript data "tasks" ;; f tasks)
  = ([EvOpen store_path], inl (Uncaught e)).
Proof.
  unfold load_failure. intros H.
  destruct (fs store_path) as [| |doc] eqn:Hfs.
  - injection H as <-. unfold load. rewrite Hfs. reflexivity.
  - injection H as <-. unfold load. rewrite Hfs. reflexivity.
  - rewrite (load_holds _ _ Hfs), bind_pure.
    destruct doc as [| | | | | |fields]; try (injection H as <-; reflexivity).
    cbn [subscript]. destruct (dict_get "tasks" fields); [discriminate|].
    injection H as <-. reflexivity.
Qed.

Lemma load_failure_none (fs : filesystem) :
  load_failure fs = None -> exists v, tasks_value fs = Some v.
Proof.
  unfold load_failure, tasks_value.
  destruct (fs store_path) as [| |doc]; try discriminate.
  destruct doc as [| | | | | |fields]; try discriminate.
  destruct (dict_get "tasks" fields) as [v|]; [eauto|discriminate].
Qed.

Lemma tasks_of_value (fs : filesystem) (ts : list value) :
  tasks_of fs = Some ts <-> tasks_value fs = Some (JList ts).
Proof.
  unfold tasks_of, tasks_value.
  destruct (fs store_path) as [| |doc]; try (split; discriminate).
  destruct doc as [| | | | | |fields]; try (split; discriminate).
  destruct (dict_get "tasks" fields) as [v|]; [|split; discriminate].
  destruct v; split; intros H; try discriminate; congruence.
Qed.

End ReaderLaws.

(** ** More on the Summary Reporter *)

Module CheckTasksMore.
Import Py Run Ops Reader Store Examples Expected Laws ReaderLaws.
Import CheckTasks CheckTasksProps.

Lemma passing_all (ts : list value) :
  first_remaining ts = None -> passing ts = ts /\ remaining ts = [].
Proof.
  unfold first_remaining, passing, remaining, is_remaining.
  induction ts as [|t ts IH]; [split; reflexivity|].
  cbn [find filter]. destruct (is_passing t); cbn [negb]; [|discriminate].
  intros H. destruct (IH H) as [-> ->]. split; reflexivity.
Qed.

(** X2.  When every element of the store is a mapping whose [passes] is
    truthy, the Summary Reporter prints the number of tasks as total and
    as passing count, 0 as remaining count, a blank line and "All tasks
    are passing!", prints no identifier and no title, and ends with exit
    status 0. *)
Theorem check_tasks_all_passing (fs : filesystem) (ts : list value) :
  tasks_of fs = Some ts -> records ts -> first_remaining ts = None ->
  check_tasks fs
  = ([EvOpen store_path;
      EvPrint ("Total: " ++ str_int (Z.of_nat (List.length ts)));
      EvPrint ("Passing: " ++ str_int (Z.of_nat (List.length ts)));
      EvPrint "Remaining: 0";
      EvPrint "";
      EvPrint "All tasks are passing!"],
     inr tt).
Proof.
  intros Hfs Hrec Hnone. rewrite (check_tasks_records _ _ Hfs Hrec).
  unfold count_lines. destruct (passing_all _ Hnone) as [-> ->]. reflexivity.
Qed.

Lemma check_tasks_all_passing_witness :
  check_tasks (holding (store_of [JObject [("id", JInt 1); ("passes", JStr "yes")]]))
  = ([EvOpen store_path;
      EvPrint "Total: 1"; EvPrint "Passing: 1"; EvPrint "Remaining: 0"; EvPrint "";
      EvPrint "All tasks are passing!"],
     inr tt).
Proof.
  apply (check_tasks_all_passing
           (holding (store_of [JObject [("id", JInt 1); ("passes", JStr "yes")]]))
           [JObject [("id", JInt 1); ("passes", JStr "yes")]]).
  - reflexivity.
  - repeat constructor.
  - reflexivity.
Defined.

(** X3.  The subscripts of lines 17 and 18 are strict and run after the
    counts are printed.  When the first not-passing record has no [id],
    the Summary Reporter has printed the counts and the heading and ends
    on [KeyError('id')]; when it has an [id] but no [title], the [ID]
    line is printed as well before [KeyError('title')]. *)
Theorem check_tasks_next_incomplete (fs : filesystem) (ts : list value) (t : value) :
  tasks_of fs = Some ts -> records ts -> first_remaining ts = Some t ->
  (field "id" t = None ->
   check_tasks fs
   = ((EvOpen store_path :: count_lines ts
        ++ [EvPrint "Next not-passing task:"])%list,
      inl (Uncaught (KeyError "id"))))
  /\ (forall i, field "id" t = Some i -> field "title" t = None ->
      check_tasks fs
      = ((EvOpen store_path :: count_lines ts
           ++ [EvPrint "Next not-passing task:"; EvPrint ("  ID: " ++ str i)])%list,
         inl (Uncaught (KeyError "title")))).
Proof.
  intros Hfs Hrec Hfirst.
  rewrite (check_tasks_records _ _ Hfs Hrec).
  assert (Hm : is_mapping t = true).
  { apply find_some in Hfirst. destruct Hfirst as [Hin _].
    unfold records in Hrec. rewrite Forall_forall in Hrec. auto. }
  rewrite remaining_head in Hfirst.
  destruct (remaining ts) as [|t' rest]; [discriminate|].
  injection Hfirst as ->.
  destruct t as [| | | | | |fields]; try discriminate. unfold field.
  split.
  - intros Hi. unfold report_next. rewrite (subscript_missing _ _ Hi). run_step.
    reflexivity.
  - intros i Hi Ht. unfold report_next.
    rewrite (subscript_field (JObject fields) "id" i Hi), (subscript_missing _ _ Ht).
    run_step. reflexivity.
Qed.

Lemma check_tasks_next_incomplete_witness :
  check_tasks (holding (store_of untitled_tasks))
  = ([EvOpen store_path;
      EvPrint "Total: 1"; EvPrint "Passing: 0"; EvPrint "Remaining: 1"; EvPrint "";
      EvPrint "Next not-passing task:"; EvPrint "  ID: 1"],
     inl (Uncaught (KeyError "title"))).
Proof.
  refine (proj2 (check_tasks_next_incomplete
                   (holding (store_of untitled_tasks)) untitled_tasks
                   (JObject [("id", JInt 1)]) _ _ _)
                (JInt 1) _ _).
  - reflexivity.
  - repeat constructor.
  - reflexivity.
  - reflexivity.
  - reflexivity.
Defined.

(** X4.  The two comprehensions call [t.get] on every element before
    anything is printed: when some element of the store, wherever it
    stands, is not a mapping, the Summary Reporter prints nothing and ends
    on [AttributeError], with exit status 1. *)
Theorem check_tasks_rejects_non_mapping (fs : filesystem) (ts : list value) :
  tasks_of fs = Some ts ->
  Exists (fun t => is_mapping t = false) ts ->
  check_tasks fs = ([EvOpen store_path], inl (Uncaught AttributeError))
  /\ stdout (trace (check_tasks fs)) = ""
  /\ exit_status (check_tasks fs) = 1.
Proof.
  intros Hfs Hex.
  assert (Hrun : check_tasks fs = ([EvOpen store_path], inl (Uncaught AttributeError))).
  { apply (check_tasks_not_records _ _ Hfs). intros Hrec.
    unfold records in Hrec. rewrite Forall_forall in Hrec.
    apply Exists_exists in Hex. destruct Hex as (t & Hin & Ht).
    rewrite (Hrec t Hin) in Ht. discriminate. }
  rewrite Hrun. repeat split.
Qed.

Lemma check_tasks_rejects_non_mapping_witness :
  check_tasks (holding (store_of [JObject [("id", JInt 1); ("title", JStr "A")]; JInt 7]))
  = ([EvOpen store_path], inl (Uncaught AttributeError)).
Proof.
  apply (check_tasks_rejects_non_mapping
           (holding (store_of [JObject [("id", JInt 1); ("title", JStr "A")]; JInt 7]))
           [JObject [("id", JInt 1); ("title", JStr "A")]; JInt 7]).
  - reflexivity.
  - apply Exists_cons_tl. apply Exists_cons_hd. reflexivity.
Defined.

Lemma check_tasks_scalar (fs : filesystem) (v : value) :
  tasks_value fs = Some v -> is_scalar v = true ->
  check_tasks fs = ([EvOpen store_path], inl (Uncaught TypeError)).
Proof.
  intros Hv Hs. unfold check_tasks. rewrite (load_value _ _ _ Hv).
  destruct v; try discriminate; reflexivity.
Qed.

Lemma check_tasks_empty_iterable (fs : filesystem) (v : value) :
  tasks_value fs = Some v -> is_text_or_mapping v = true -> truthy v = false ->
  check_tasks fs = empty_report.
Proof.
  intros Hv Hk He. unfold check_tasks. rewrite (load_value _ _ _ Hv).
  destruct v as [| | | |s| |fields]; try discriminate.
  - destruct s; [reflexivity|discriminate].
  - destruct fields; [reflexivity|discriminate].
Qed.

Lemma check_tasks_keys_or_chars (fs : filesystem) (v : value) :
  tasks_value fs = Some v -> is_text_or_mapping v = true -> truthy v = true ->
  check_tasks fs = ([EvOpen store_path], inl (Uncaught AttributeError)).
Proof.
  intros Hv Hk He. unfold check_tasks. rewrite (load_value _ _ _ Hv).
  destruct v as [| | | |s| |fields]; try discriminate.
  - destruct s; [discriminate|reflexivity].
  - destruct fields; [discriminate|reflexivity].
Qed.

(** X5.  [tasks] need not be a list for the Summary Reporter to run:
    [for t in tasks] and [len(tasks)] accept a string and a mapping too.
    An empty string or mapping gives the report of an empty store; a
    non-empty one is gone through by characters or by keys, which have no
    [get], so the run ends on [AttributeError] with nothing printed;
    [None], a boolean or a number is not iterable, a [TypeError]. *)
Theorem check_tasks_tasks_not_a_list (fs : filesystem) (v : value) :
  tasks_value fs = Some v ->
  (is_scalar v = true ->
   check_tasks fs = ([EvOpen store_path], inl (Uncaught TypeError)))
  /\ (is_text_or_mapping v = true -> truthy v = false ->
      check_tasks fs
      = ([EvOpen store_path;
          EvPrint "Total: 0"; EvPrint "Passing: 0"; EvPrint "Remaining: 0"; EvPrint "";
          EvPrint "All tasks are passing!"],
         inr tt))
  /\ (is_text_or_mapping v = true -> truthy v = true ->
      check_tasks fs = ([EvOpen store_path], inl (Uncaught AttributeError))).
Proof.
  intros Hv. split; [|split].
  - apply check_tasks_scalar; assumption.
  - apply (check_tasks_empty_iterable _ _ Hv).
  - apply check_tasks_keys_or_chars; assumption.
Qed.

Lemma check_tasks_tasks_not_a_list_witness :
  check_tasks (holding (JObject [("tasks", JNull)]))
  = ([EvOpen store_path], inl (Uncaught TypeError))
  /\ check_tasks (holding (JObject [("tasks", JObject [])]))
     = ([EvOpen store_path;
         EvPrint "Total: 0"; EvPrint "Passing: 0"; EvPrint "Remaining: 0"; EvPrint "";
         EvPrint "All tasks are passing!"],
        inr tt)
  /\ check_tasks (holding (JObject [("tasks", JStr "ab")]))
     = ([EvOpen store_path], inl (Uncaught AttributeError)).
Proof.
  split; [|split].
  - apply (proj1 (check_tasks_tasks_not_a_list
                    (holding (JObject [("tasks", JNull)])) JNull eq_refl)).
    reflexivity.
  - apply (proj1 (proj2 (check_tasks_tasks_not_a_list
                           (holding (JObject [("tasks", JObject [])])) (JObject [])
                           eq_refl))); reflexivity.
  - apply (proj2 (proj2 (check_tasks_tasks_not_a_list
                           (holding (JObject [("tasks", JStr "ab")])) (JStr "ab")
                           eq_refl))); reflexivity.
Defined.

(** X6.  The counts come all together or not at all.  Whatever the file
    system holds, the Summary Reporter either prints nothing and ends on
    an uncaught exception, or starts its output with the four lines of
    the counts (total, passing, remaining, blank) of a sequence of
    mappings: every exception of the counting phase is raised before the
    first [print]. *)
Theorem check_tasks_counts_or_nothing (fs : filesystem) :
  (exists e, check_tasks fs = ([EvOpen store_path], inl (Uncaught e)))
  \/ (exists ts tail,
        records ts
        /\ trace (check_tasks fs) = (EvOpen store_path :: count_lines ts ++ tail)%list).
Proof.
  destruct (load_failure fs) as [e|] eqn:Hload.
  - left. exists e. unfold check_tasks. apply (load_fails _ _ _ Hload).
  - destruct (load_failure_none _ Hload) as [v Hv].
    destruct (is_scalar v) eqn:Hs.
    { left. eexists. apply (check_tasks_scalar _ _ Hv Hs). }
    destruct (is_text_or_mapping v) eqn:Hk.
    + destruct (truthy v) eqn:He.
      * left. eexists. apply (check_tasks_keys_or_chars _ _ Hv Hk He).
      * right. exists [], [EvPrint "All tasks are passing!"]. split; [constructor|].
        rewrite (check_tasks_empty_iterable _ _ Hv Hk He). reflexivity.
    + destruct v as [| | | | |ts|]; try discriminate.
      apply tasks_of_value in Hv. destruct (records_dec ts) as [Hrec|Hrec].
      * right. exists ts, (trace (report_next (remaining ts))).
        split; [exact Hrec|]. rewrite (check_tasks_records _ _ Hv Hrec). reflexivity.
      * left. eexists. apply (check_tasks_not_records _ _ Hv Hrec).
Qed.

End CheckTasksMore.

(** ** More on the Task Detail Printer *)

Module ShowTaskMore.
Import Py Run Ops Reader Store Examples Expected Laws ReaderLaws.
Import ShowTask ShowTaskProps.

(** Records that have an [id] other than the one looked for are passed
    over. *)
Lemma scan_skip (k : Z) (pre rest : list value) :
  identified pre -> (forall t, In t pre -> has_id k t = false) ->
  scan (Some k) (pre ++ rest)%list = scan (Some k) rest.
Proof.
  induction 1 as [|t pre Hid _ IH]; intros Hno; [reflexivity|].
  cbn [app scan]. destruct (has_field_some _ _ Hid) as [i Hi].
  rewrite (subscript_field _ _ _ Hi), bind_ret.
  pose proof (Hno t (or_introl eq_refl)) as Ht. unfold has_id in Ht.
  rewrite Hi in Ht. cbn [eq_id]. rewrite Ht.
  apply IH. intros t' Hin. apply Hno. right. exact Hin.
Qed.

Lemma show_task_scan (argv : list string) (fs : filesystem) (ts : list value) (k : Z) :
  (1 < List.length argv)%nat -> int_of_str (nth 1 argv "") = Some k -> k <> 0 ->
  tasks_of fs = Some ts ->
  show_task argv fs = after [EvOpen store_path] (scan (Some k) ts).
Proof.
  intros Hlen Hk Hnz Hfs. rewrite (show_task_nonzero _ fs k Hlen Hk Hnz).
  unfold lookup. apply (load_tasks _ _ _ Hfs).
Qed.

Lemma print_task_untitled (t i : value) :
  field "id" t = Some i -> field "title" t = None ->
  print_task t = ([], inl (Uncaught (KeyError "title"))).
Proof.
  destruct t as [| | | | | |fields]; try discriminate. unfold field. intros Hi Ht.
  unfold print_task. rewrite (subscript_field (JObject fields) "id" i Hi), bind_ret.
  rewrite (subscript_missing _ _ Ht). reflexivity.
Qed.

(** X7.  The loop stops at the first match ([break]): what comes after
    it in the store is never looked at.  When the records before the first
    record whose [id] equals [k] are mappings with an [id], and that
    record has a [title], the Task Detail Printer prints its four detail
    lines and exits with status 0, whatever follows it, be it elements
    that are no records at all. *)
Theorem show_task_stops_at_first_match
    (prog s : string) (more : list string) (fs : filesystem)
    (pre post : list value) (k : Z) (t i title : value) :
  int_of_str s = Some k -> k <> 0 ->
  tasks_of fs = Some (pre ++ t :: post)%list ->
  identified pre -> (forall t', In t' pre -> has_id k t' = false) ->
  field "id" t = Some i -> eq_int i k = true ->
  field "title" t = Some title ->
  show_task (prog :: s :: more) fs
  = (EvOpen store_path :: detail_lines i title t, inr tt).
Proof.
  intros Hk Hnz Hfs Hpre Hno Hi Heq Ht.
  rewrite (show_task_scan (prog :: s :: more) fs _ k ltac:(cbn; lia) Hk Hnz Hfs).
  rewrite (scan_skip _ _ _ Hpre Hno). cbn [scan].
  rewrite (subscript_field _ _ _ Hi), bind_ret. cbn [eq_id]. rewrite Heq.
  rewrite (print_task_fields _ _ _ Hi Ht). reflexivity.
Qed.

Lemma show_task_stops_at_first_match_witness :
  show_task ["show_task.py"; "1"]
    (holding (store_of ([] ++ JObject [("id", JInt 1); ("title", JStr "A")]
                           :: [JInt 7; JNull])%list))
  = (EvOpen store_path
       :: detail_lines (JInt 1) (JStr "A") (JObject [("id", JInt 1); ("title", JStr "A")]),
     inr tt).
Proof.
  apply (show_task_stops_at_first_match
           "show_task.py" "1" []
           (holding (store_of ([] ++ JObject [("id", JInt 1); ("title", JStr "A")]
                                  :: [JInt 7; JNull])%list))
           [] [JInt 7; JNull] 1).
  - reflexivity.
  - lia.
  - reflexivity.
  - constructor.
  - intros t' [].
  - reflexivity.
  - reflexivity.
  - reflexivity.
Defined.

(** X8.  The subscript [t['id']] of line 13 is strict.  When the records
    before [t] are mappings with an [id] other than [k] and [t] has no
    [id], the Task Detail Printer prints nothing and ends on
    [KeyError('id')] if [t] is a mapping, on [TypeError] if it is not,
    even when a record with the [id] [k] follows. *)
Theorem show_task_unidentified_element
    (prog s : string) (more : list string) (fs : filesystem)
    (pre post : list value) (k : Z) (t : value) :
  int_of_str s = Some k -> k <> 0 ->
  tasks_of fs = Some (pre ++ t :: post)%list ->
  identified pre -> (forall t', In t' pre -> has_id k t' = false) ->
  field "id" t = None ->
  show_task (prog :: s :: more) fs
  = ([EvOpen store_path],
     inl (Uncaught (if is_mapping t then KeyError "id" else TypeError))).
Proof.
  intros Hk Hnz Hfs Hpre Hno Hi.
  rewrite (show_task_scan (prog :: s :: more) fs _ k ltac:(cbn; lia) Hk Hnz Hfs).
  rewrite (scan_skip _ _ _ Hpre Hno). cbn [scan].
  destruct t as [| | | | | |fields]; try reflexivity.
  unfold field in Hi. rewrite (subscript_missing _ _ Hi). reflexivity.
Qed.

Lemma show_task_unidentified_element_witness :
  show_task ["show_task.py"; "2"]
    (holding (store_of ([JObject [("id", JInt 1); ("title", JStr "A")]]
                          ++ JObject [("title", JStr "X")]
                          :: [JObject [("id", JInt 2); ("title", JStr "B")]])%list))
  = ([EvOpen store_path], inl (Uncaught (KeyError "id"))).
Proof.
  apply (show_task_unidentified_element
           "show_task.py" "2" []
           (holding (store_of ([JObject [("id", JInt 1); ("title", JStr "A")]]
                                 ++ JObject [("title", JStr "X")]
                                 :: [JObject [("id", JInt 2); ("title", JStr "B")]])%list))
           [JObject [("id", JInt 1); ("title", JStr "A")]]
           [JObject [("id", JInt 2); ("title", JStr "B")]] 2
           (JObject [("title", JStr "X")])).
  - reflexivity.
  - lia.
  - reflexivity.
  - repeat constructor.
  - intros t' [<-|[]]. reflexivity.
  - reflexivity.
Defined.

(** X9.  The header line evaluates [t['id']] and [t['title']] before it
    prints: when the first record whose [id] equals [k] has no [title],
    the Task Detail Printer prints nothing of the record and ends on
    [KeyError('title')]; it does not go on to a later record with that
    [id]. *)
Theorem show_task_untitled_match
    (prog s : string) (more : list string) (fs : filesystem)
    (pre post : list value) (k : Z) (t i : value) :
  int_of_str s = Some k -> k <> 0 ->
  tasks_of fs = Some (pre ++ t :: post)%list ->
  identified pre -> (forall t', In t' pre -> has_id k t' = false) ->
  field "id" t = Some i -> eq_int i k = true ->
  field "title" t = None ->
  show_task (prog :: s :: more) fs
  = ([EvOpen store_path], inl (Uncaught (KeyError "title"))).
Proof.
  intros Hk Hnz Hfs Hpre Hno Hi Heq Ht.
  rewrite (show_task_scan (prog :: s :: more) fs _ k ltac:(cbn; lia) Hk Hnz Hfs).
  rewrite (scan_skip _ _ _ Hpre Hno). cbn [scan].
  rewrite (subscript_field _ _ _ Hi), bind_ret. cbn [eq_id]. rewrite Heq.
  rewrite (print_task_untitled _ _ Hi Ht). reflexivity.
Qed.

Lemma show_task_untitled_match_witness :
  show_task ["show_task.py"; "1"]
    (holding (store_of ([] ++ JObject [("id", JInt 1)]
                           :: [JObject [("id", JInt 1); ("title", JStr "A")]])%list))
  = ([EvOpen store_path], inl (Uncaught (KeyError "title"))).
Proof.
  apply (show_task_untitled_match
           "show_task.py" "1" []
           (holding (store_of ([] ++ JObject [("id", JInt 1)]
                                  :: [JObject [("id", JInt 1); ("title", JStr "A")]])%list))
           [] [JObject [("id", JInt 1); ("title", JStr "A")]] 1
           (JObject [("id", JInt 1)]) (JInt 1)).
  - reflexivity.
  - lia.
  - reflexivity.
  - constructor.
  - intros t' [].
  - reflexivity.
  - reflexivity.
  - reflexivity.
Defined.

Lemma print_task_cases (t i : value) :
  field "id" t = Some i ->
  print_task t = ([], inl (Uncaught (KeyError "title")))
  \/ exists title, field "title" t = Some title
                   /\ print_task t = (detail_lines i title t, inr tt).
Proof.
  intros Hi. destruct (field "title" t) as [title|] eqn:Ht.
  - right. exists title. split; [reflexivity|]. apply (print_task_fields _ _ _ Hi Ht).
  - left. apply (print_task_untitled _ _ Hi Ht).
Qed.

Lemma subscript_no_field (t : value) (key : string) :
  field key t = None -> exists e, subscript t key = raise e.
Proof.
  destruct t as [| | | | | |fields]; try (intros _; eexists; reflexivity).
  unfold field. intros H. rewrite (subscript_missing _ _ H). eauto.
Qed.

(** The three ways the loop ends. *)
Lemma scan_cases (k : Z) (items : list value) :
  (exists e, scan (Some k) items = ([], inl (Uncaught e)))
  \/ scan (Some k) items
     = ([EvPrint ("Task " ++ str_int k ++ " not found")], inl (SysExit 1))
  \/ (exists t i title,
        field "id" t = Some i /\ field "title" t = Some title
        /\ scan (Some k) items = (detail_lines i title t, inr tt)).
Proof.
  induction items as [|t rest IH]; [right; left; reflexivity|].
  cbn [scan]. destruct (field "id" t) as [i|] eqn:Hi.
  - rewrite (subscript_field _ _ _ Hi), bind_ret. cbn [eq_id].
    destruct (eq_int i k); [|exact IH].
    destruct (print_task_cases _ _ Hi) as [->|(title & Ht & ->)].
    + left. eauto.
    + right. right. exists t, i, title. auto.
  - destruct (subscript_no_field _ _ Hi) as [e ->]. left. exists e. reflexivity.
Qed.

(** X10.  A run of the Task Detail Printer has one of five forms,
    whatever the arguments and the file system: the usage message and
    status 1; nothing at all and [ValueError]; the store opened and an
    uncaught exception with nothing printed; the store opened, the "not
    found" message and status 1; the store opened, the four detail lines
    of one record and a normal end.  So exit status 0 comes with a whole
    record on the standard output, a record is never printed in part, and
    the exit status is 0 or 1. *)
Theorem show_task_runs (argv : list string) (fs : filesystem) :
  show_task argv fs = ([EvPrint usage], inl (SysExit 1))
  \/ show_task argv fs = ([], inl (Uncaught ValueError))
  \/ (exists e, show_task argv fs = ([EvOpen store_path], inl (Uncaught e)))
  \/ (exists k, show_task argv fs
                = ([EvOpen store_path; EvPrint ("Task " ++ str_int k ++ " not found")],
                   inl (SysExit 1)))
  \/ (exists t i title,
        field "id" t = Some i /\ field "title" t = Some title
        /\ show_task argv fs = (EvOpen store_path :: detail_lines i title t, inr tt)).
Proof.
  destruct (Nat.le_gt_cases (List.length argv) 1) as [Hlen|Hlen].
  { left. apply (show_task_absent _ _ Hlen). }
  destruct (int_of_str (nth 1 argv "")) as [k|] eqn:Hk.
  2:{ right. left. apply (show_task_unparsable _ _ Hlen Hk). }
  destruct (Z.eq_dec k 0) as [->|Hnz].
  { left. apply (show_task_zero _ _ Hlen Hk). }
  right. right. rewrite (show_task_nonzero _ fs k Hlen Hk Hnz). unfold lookup.
  destruct (load_failure fs) as [e|] eqn:Hload.
  { left. exists e. apply (load_fails _ _ _ Hload). }
  destruct (load_failure_none _ Hload) as [v Hv]. rewrite (load_value _ _ _ Hv).
  assert (Hiter : iter v = raise TypeError \/ exists items, iter v = ret items)
    by (destruct v; cbn; eauto).
  destruct Hiter as [->|[items ->]].
  { left. exists TypeError. reflexivity. }
  rewrite bind_ret.
  destruct (scan_cases k items) as [[e ->]|[->|(t & i & title & Hi & Ht & ->)]].
  - left. exists e. reflexivity.
  - right. left. exists k. reflexivity.
  - right. right. exists t, i, title. auto.
Qed.

(** X12.  When [tasks] is not a list the Task Detail Printer, given an
    identifier [k] other than 0, still opens the store: an empty string
    or mapping is a store without records ("Task k not found", status
    1); a non-empty one is gone through by characters or by keys, on
    which [t['id']] raises [TypeError]; [None], a boolean or a number is
    not iterable, a [TypeError] as well; nothing is printed then. *)
Theorem show_task_tasks_not_a_list
    (prog s : string) (more : list string) (fs : filesystem) (v : value) (k : Z) :
  int_of_str s = Some k -> k <> 0 ->
  tasks_value fs = Some v ->
  (is_text_or_mapping v = true -> truthy v = false ->
   show_task (prog :: s :: more) fs
   = ([EvOpen store_path; EvPrint ("Task " ++ str_int k ++ " not found")],
      inl (SysExit 1)))
  /\ (is_scalar v = true \/ (is_text_or_mapping v = true /\ truthy v = true) ->
      show_task (prog :: s :: more) fs = ([EvOpen store_path], inl (Uncaught TypeError))).
Proof.
  intros Hk Hnz Hv.
  rewrite (show_task_nonzero (prog :: s :: more) fs k ltac:(cbn; lia) Hk Hnz).
  unfold lookup. rewrite (load_value _ _ _ Hv). split.
  - intros Hkind He. destruct v as [| | | |txt| |fields]; try discriminate.
    + destruct txt; [reflexivity|discriminate].
    + destruct fields; [reflexivity|discriminate].
  - intros [Hs|[Hkind He]].
    + destruct v; try discriminate; reflexivity.
    + destruct v as [| | | |txt| |fields]; try discriminate.
      * destruct txt; [discriminate|reflexivity].
      * destruct fields; [discriminate|reflexivity].
Qed.

Lemma show_task_tasks_not_a_list_witness :
  show_task ["show_task.py"; "5"] (holding (JObject [("tasks", JStr "")]))
  = ([EvOpen store_path; EvPrint "Task 5 not found"], inl (SysExit 1))
  /\ show_task ["show_task.py"; "5"] (holding (JObject [("tasks", JInt 3)]))
     = ([EvOpen store_path], inl (Uncaught TypeError)).
Proof.
  split.
  - apply (proj1 (show_task_tasks_not_a_list
                    "show_task.py" "5" [] (holding (JObject [("tasks", JStr "")]))
                    (JStr "") 5 eq_refl ltac:(lia) eq_refl)); reflexivity.
  - apply (proj2 (show_task_tasks_not_a_list
                    "show_task.py" "5" [] (holding (JObject [("tasks", JInt 3)]))
                    (JInt 3) 5 eq_refl ltac:(lia) eq_refl)).
    left. reflexivity.
Defined.

End ShowTaskMore.

(** ** The two scripts together *)

Module Together.
Import Py Run Ops Reader Store Examples Expected Laws ReaderLaws.
Import CheckTasks ShowTask Main CheckTasksProps ShowTaskProps.

Lemma unique_first (ts : list value) (k : Z) (t : value) :
  unique_ids ts -> In t ts -> has_id k t = true -> first_with_id k ts = Some t.
Proof.
  intros Huniq Hin Hid. unfold first_with_id.
  destruct (find (has_id k) ts) as [t'|] eqn:Hfind.
  - apply find_some in Hfind. destruct Hfind as [Hin' Hid'].
    f_equal. apply (Huniq t' t k); assumption.
  - rewrite (find_none _ _ Hfind t Hin) in Hid. discriminate.
Qed.

(** X14.  The identifier the Summary Reporter prints leads the Task
    Detail Printer to the same record.  Let the file, read with the
    locale's encoding (as [check_tasks.py] opens it) and read as UTF-8 (as
    [show_task.py] opens it), give the same sequence of tasks, all
    mappings with an [id], no two of which answer to the same identifier.
    When the first not-passing record [t] has the integer [k], other
    than 0, as [id] and has a [title]: the Summary Reporter prints [k] in
    its [ID] line, and the Task Detail Printer called with an argument
    that reads as [k] prints the detail lines of [t] itself, a record
    that is not passing. *)
Theorem next_task_can_be_shown
    (prog s : string) (more : list string) (d : disk)
    (ts : list value) (t title : value) (k : Z) :
  tasks_of (d LocaleEncoding) = Some ts -> tasks_of (d Utf8) = Some ts ->
  identified ts -> unique_ids ts ->
  first_remaining ts = Some t ->
  field "id" t = Some (JInt k) -> k <> 0 -> field "title" t = Some title ->
  int_of_str s = Some k ->
  run_check_tasks d
  = ((EvOpen store_path :: count_lines ts
       ++ [EvPrint "Next not-passing task:";
           EvPrint ("  ID: " ++ str_int k);
           EvPrint ("  Title: " ++ str title)])%list,
     inr tt)
  /\ run_show_task (prog :: s :: more) d
     = (EvOpen store_path :: detail_lines (JInt k) title t, inr tt)
  /\ is_passing t = false.
Proof.
  intros Hloc Hutf Hid Huniq Hfirst Hi Hnz Ht Hk.
  pose proof (find_some _ _ Hfirst) as [Hin Hrem].
  unfold run_check_tasks, run_show_task. split; [|split].
  - rewrite (check_tasks_records _ _ Hloc (identified_records _ Hid)).
    rewrite remaining_head in Hfirst.
    destruct (remaining ts) as [|t' rest]; [discriminate|].
    injection Hfirst as ->.
    rewrite (report_next_fields _ _ _ _ Hi Ht). reflexivity.
  - assert (Hhas : has_id k t = true).
    { unfold has_id. rewrite Hi. cbn [eq_int]. apply Z.eqb_refl. }
    rewrite (show_task_nonzero (prog :: s :: more) (d Utf8) k ltac:(cbn; lia) Hk Hnz).
    unfold lookup. rewrite (load_tasks _ _ _ Hutf).
    rewrite (scan_hit _ _ _ Hid (unique_first _ _ _ Huniq Hin Hhas)).
    rewrite (print_task_fields _ _ _ Hi Ht). reflexivity.
  - unfold is_remaining in Hrem. apply negb_true_iff. exact Hrem.
Qed.

Lemma next_task_can_be_shown_witness :
  run_check_tasks (fun _ => example_fs)
  = ([EvOpen store_path;
      EvPrint "Total: 2"; EvPrint "Passing: 1"; EvPrint "Remaining: 1"; EvPrint "";
      EvPrint "Next not-passing task:"; EvPrint "  ID: 2"; EvPrint "  Title: B"],
     inr tt)
  /\ run_show_task ["show_task.py"; "2"] (fun _ => example_fs)
     = (EvOpen store_path
          :: detail_lines (JInt 2) (JStr "B") (JObject [("id", JInt 2); ("title", JStr "B")]),
        inr tt)
  /\ is_passing (JObject [("id", JInt 2); ("title", JStr "B")]) = false.
Proof.
  apply (next_task_can_be_shown "show_task.py" "2" [] (fun _ => example_fs) example_tasks
           (JObject [("id", JInt 2); ("title", JStr "B")]) (JStr "B") 2).
  - reflexivity.
  - reflexivity.
  - repeat constructor.
  - intros t1 t2 k [<-|[<-|[]]] [<-|[<-|[]]] H1 H2; try reflexivity;
      cbv in H1, H2; destruct k as [|[p|p|]|]; discriminate.
  - reflexivity.
  - reflexivity.
  - lia.
  - reflexivity.
  - reflexivity.
Defined.

End Together.

(** ** The examples of the specification, and the failures of the Reader *)

Module SpecExamples.
Import Py Run Ops Reader Store Examples Expected CheckTasks ShowTask.

Example check_tasks_example :
  stdout (trace (check_tasks example_fs))
  = "Total: 2" ++ newline ++ "Passing: 1" ++ newline ++ "Remaining: 1" ++ newline
    ++ newline
    ++ "Next not-passing task:" ++ newline ++ "  ID: 2" ++ newline
    ++ "  Title: B" ++ newline
  /\ exit_status (check_tasks example_fs) = 0.
Proof. split; reflexivity. Qed.

Example show_task_example_found :
  stdout (trace (show_task ["show_task.py"; "2"] example_fs))
  = "# 2: B" ++ newline ++ "passes: False" ++ newline
    ++ newline ++ "Description:" ++ newline ++ newline
    ++ newline ++ "Acceptance criteria (Gherkin):" ++ newline ++ newline
  /\ exit_status (show_task ["show_task.py"; "2"] example_fs) = 0.
Proof. split; reflexivity. Qed.

Example show_task_example_not_found :
  stdout (trace (show_task ["show_task.py"; "99"] example_fs))
  = "Task 99 not found" ++ newline
  /\ exit_status (show_task ["show_task.py"; "99"] example_fs) = 1.
Proof. split; reflexivity. Qed.

(** A missing file, text that is not JSON, a document without [tasks]:
    both scripts end on the exception, having printed nothing. *)
Example check_tasks_reader_failures :
  check_tasks (fun _ => Absent) = ([EvOpen store_path], inl (Uncaught OSError))
  /\ check_tasks (fun _ => Malformed) = ([EvOpen store_path], inl (Uncaught JSONDecodeError))
  /\ check_tasks (holding (JObject []))
     = ([EvOpen store_path], inl (Uncaught (KeyError "tasks")))
  /\ check_tasks (holding (JList [])) = ([EvOpen store_path], inl (Uncaught TypeError)).
Proof. repeat split. Qed.

Example show_task_reader_failures :
  show_task ["show_task.py"; "1"] (fun _ => Absent)
  = ([EvOpen store_path], inl (Uncaught OSError))
  /\ show_task ["show_task.py"; "1"] (fun _ => Malformed)
     = ([EvOpen store_path], inl (Uncaught JSONDecodeError))
  /\ show_task ["show_task.py"; "1"] (holding (JObject []))
     = ([EvOpen store_path], inl (Uncaught (KeyError "tasks"))).
Proof. repeat split. Qed.

(** The subscripts [t['id']] and [t['title']] are strict: a record
    without [title], or a record without [id] met before the match, ends
    the Task Detail Printer on a [KeyError]. *)
Example show_task_untitled :
  show_task ["show_task.py"; "1"] (holding (store_of untitled_tasks))
  = ([EvOpen store_path], inl (Uncaught (KeyError "title"))).
Proof. reflexivity. Qed.

Example show_task_unidentified :
  show_task ["show_task.py"; "2"]
    (holding (store_of [JObject [("title", JStr "A")];
                        JObject [("id", JInt 2); ("title", JStr "B")]]))
  = ([EvOpen store_path], inl (Uncaught (KeyError "id"))).
Proof. reflexivity. Qed.

(** [True == 1]: a record whose [id] is [true] is the one found for 1. *)
Example show_task_bool_id :
  show_task ["show_task.py"; "1"]
    (holding (store_of [JObject [("id", JBool true); ("title", JStr "T")]]))
  = ([EvOpen store_path;
      EvPrint "# True: T"; EvPrint "passes: False";
      EvPrint (newline ++ "Description:" ++ newline);
      EvPrint (newline ++ "Acceptance criteria (Gherkin):" ++ newline)],
     inr tt).
Proof. reflexivity. Qed.

End SpecExamples.
